(** * xterm-addon-offscreen: the cell-to-raster pipeline of [OffscreenAddon.ts]

    A shallow embedding of [src/OffscreenAddon.ts].  Colours are the strings
    the code builds, a JavaScript value that may be [undefined] is an
    [option], the 2D context is the sequence of calls made on it, and the
    addon object is a record threaded through its methods. *)

From Stdlib Require Import ZArith QArith Qround List String Ascii Bool Lia DecimalString.
Import ListNotations.

Local Open Scope string_scope.
Local Open Scope Z_scope.

(** ** JavaScript values and operators used by the module *)

(** [a ?? b]: the left operand unless it is null or undefined. *)
Definition nullish {A : Type} (a b : option A) : option A :=
  match a with
  | Some _ => a
  | None => b
  end.

Notation "a ?? b" := (nullish a b) (at level 45, right associativity).

(** [arr[i]] on an array whose elements are never undefined. *)
Definition idx {A : Type} (arr : list A) (i : Z) : option A :=
  if i <? 0 then None else nth_error arr (Z.to_nat i).

(** [arr[i]] on an array whose elements may themselves be undefined. *)
Definition idx_opt {A : Type} (arr : list (option A)) (i : Z) : option A :=
  match idx arr i with
  | Some v => v
  | None => None
  end.

(** [arr.push(x)]. *)
Definition push {A : Type} (arr : list A) (x : A) : list A := arr ++ [x].

(** The values taken by [i] in [for (let i = 0; i < n; i++)]. *)
Definition range (n : Z) : list Z := map Z.of_nat (seq 0 (Z.to_nat n)).

(** [for (let i = 0; i < n; i++) body], threading the state the body updates. *)
Definition for_range {S : Type} (n : Z) (body : Z -> S -> S) (s : S) : S :=
  fold_left (fun acc i => body i acc) (range n) s.

(** ToInt32, applied by the bitwise operators to their operands. *)
Definition to_int32 (v : Z) : Z :=
  let m := v mod 2 ^ 32 in
  if 2 ^ 31 <=? m then m - 2 ^ 32 else m.

(** [a >> k] for a shift count below 32. *)
Definition js_sar (a k : Z) : Z := Z.shiftr (to_int32 a) k.

(** [a & b]. *)
Definition js_and (a b : Z) : Z := Z.land (to_int32 a) (to_int32 b).

(** An integer inside a template literal. *)
Definition num_to_string (n : Z) : string := NilZero.string_of_int (Z.to_int n).

(** [${v}] for a number that may be undefined. *)
Definition tpl (v : option Z) : string :=
  match v with
  | Some n => num_to_string n
  | None => "undefined"
  end.

(** The template [`rgb(${r}, ${g}, ${b})`]. *)
Definition rgb_tpl (r g b : option Z) : string :=
  "rgb(" ++ tpl r ++ ", " ++ tpl g ++ ", " ++ tpl b ++ ")".

(** ** The palettes *)

Definition DEFAULT_ANSI_COLORS : list string :=
  [ "#000000"; "#cd0000"; "#00cd00"; "#cdcd00";
    "#0000ee"; "#cd00cd"; "#00cdcd"; "#e5e5e5";
    "#7f7f7f"; "#ff0000"; "#00ff00"; "#ffff00";
    "#5c5cff"; "#ff00ff"; "#00ffff"; "#ffffff" ].

Definition levels : list Z := [0; 95; 135; 175; 215; 255].

Definition generate256Colors (_ : unit) : list string :=
  let colors := DEFAULT_ANSI_COLORS in
  let colors :=
    for_range 6 (fun r colors =>
      for_range 6 (fun g colors =>
        for_range 6 (fun b colors =>
          push colors (rgb_tpl (idx levels r) (idx levels g) (idx levels b)))
        colors)
      colors)
    colors in
  let colors :=
    for_range 24 (fun i colors =>
      let v := 8 + i * 10 in
      push colors (rgb_tpl (Some v) (Some v) (Some v)))
    colors in
  colors.

Definition PALETTE_256 : list string := generate256Colors tt.

(** ** Theme and cells, as the xterm.js interfaces expose them *)

Record ITheme : Type := mkTheme {
  foreground : option string;
  background : option string;
  cursor : option string;
  black : option string;
  red : option string;
  green : option string;
  yellow : option string;
  blue : option string;
  magenta : option string;
  cyan : option string;
  white : option string;
  brightBlack : option string;
  brightRed : option string;
  brightGreen : option string;
  brightYellow : option string;
  brightBlue : option string;
  brightMagenta : option string;
  brightCyan : option string;
  brightWhite : option string
}.

(** The theme [{}] used when the terminal has none. *)
Definition empty_theme : ITheme :=
  mkTheme None None None None None None None None None None
          None None None None None None None None None.

(** What the methods of an [IBufferCell] return.  The colour mode is read
    through three independent predicates per channel, as in the source. *)
Record IBufferCell : Type := mkCell {
  getWidth : Z;
  getChars : string;
  getFgColor : Z;
  getBgColor : Z;
  isFgDefault : bool;
  isFgRGB : bool;
  isFgPalette : bool;
  isBgDefault : bool;
  isBgRGB : bool;
  isBgPalette : bool;
  isBold : bool;
  isItalic : bool;
  isDim : bool;
  isUnderline : bool;
  isStrikethrough : bool;
  isOverline : bool;
  isInverse : bool
}.

Definition _buildThemePalette (theme : ITheme) : list (option string) :=
  [ black theme ?? idx DEFAULT_ANSI_COLORS 0;
    red theme ?? idx DEFAULT_ANSI_COLORS 1;
    green theme ?? idx DEFAULT_ANSI_COLORS 2;
    yellow theme ?? idx DEFAULT_ANSI_COLORS 3;
    blue theme ?? idx DEFAULT_ANSI_COLORS 4;
    magenta theme ?? idx DEFAULT_ANSI_COLORS 5;
    cyan theme ?? idx DEFAULT_ANSI_COLORS 6;
    white theme ?? idx DEFAULT_ANSI_COLORS 7;
    brightBlack theme ?? idx DEFAULT_ANSI_COLORS 8;
    brightRed theme ?? idx DEFAULT_ANSI_COLORS 9;
    brightGreen theme ?? idx DEFAULT_ANSI_COLORS 10;
    brightYellow theme ?? idx DEFAULT_ANSI_COLORS 11;
    brightBlue theme ?? idx DEFAULT_ANSI_COLORS 12;
    brightMagenta theme ?? idx DEFAULT_ANSI_COLORS 13;
    brightCyan theme ?? idx DEFAULT_ANSI_COLORS 14;
    brightWhite theme ?? idx DEFAULT_ANSI_COLORS 15 ].

(** The result is [None] where the source returns [undefined] (an index the
    theme band does not have). *)
Definition _getColor (cell : IBufferCell) (isForeground : bool)
    (theme : ITheme) (themePalette : list (option string)) : option string :=
  let color := if isForeground then getFgColor cell else getBgColor cell in
  if (if isForeground then isFgDefault cell else isBgDefault cell) then
    if isForeground
    then foreground theme ?? Some "#ffffff"
    else background theme ?? Some "#000000"
  else if (if isForeground then isFgRGB cell else isBgRGB cell) then
    let r := js_and (js_sar color 16) 255 in
    let g := js_and (js_sar color 8) 255 in
    let b := js_and color 255 in
    Some (rgb_tpl (Some r) (Some g) (Some b))
  else if (if isForeground then isFgPalette cell else isBgPalette cell) then
    if color <? 16
    then idx_opt themePalette color
    else idx PALETTE_256 color ?? Some "#ffffff"
  else
    if isForeground
    then foreground theme ?? Some "#ffffff"
    else background theme ?? Some "#000000".

(** ** Numbers

    A JavaScript number where the code only compares it, or hands it to the
    platform: a rational, an infinity or NaN.  The sign of zero is not
    tracked. *)
Inductive JsNum : Type :=
| NaN
| NegInf
| PosInf
| Fin (q : Q).

(** [a < b]; false as soon as one side is NaN. *)
Definition num_ltb (a b : JsNum) : bool :=
  match a, b with
  | NaN, _ | _, NaN => false
  | NegInf, NegInf => false
  | NegInf, _ => true
  | _, NegInf => false
  | PosInf, _ => false
  | Fin _, PosInf => true
  | Fin x, Fin y => negb (Qle_bool y x)
  end.

(** [a <= b]; false as soon as one side is NaN. *)
Definition num_leb (a b : JsNum) : bool :=
  match a, b with
  | NaN, _ | _, NaN => false
  | NegInf, _ => true
  | _, PosInf => true
  | PosInf, _ => false
  | Fin _, NegInf => false
  | Fin x, Fin y => Qle_bool x y
  end.

Definition Number_isFinite (v : JsNum) : bool :=
  match v with
  | Fin _ => true
  | _ => false
  end.

(** [Math.min(a, b)] and [Math.max(a, b)]: NaN if either argument is, else
    one of the two arguments. *)
Definition Math_min (a b : JsNum) : JsNum :=
  match a, b with
  | NaN, _ | _, NaN => NaN
  | _, _ => if num_ltb a b then a else b
  end.

Definition Math_max (a b : JsNum) : JsNum :=
  match a, b with
  | NaN, _ | _, NaN => NaN
  | _, _ => if num_ltb b a then a else b
  end.

(** [a ?? b] when [b] is a literal. *)
Definition nullish_or {A : Type} (a : option A) (b : A) : A :=
  match a with
  | Some v => v
  | None => b
  end.

(** ** The terminal, read-only for the addon *)

Record ITerminalOptions : Type := mkTerminalOptions {
  fontSize : option JsNum;
  fontFamily : option string;
  lineHeight : option JsNum;
  theme : option ITheme
}.

Record IBufferLine : Type := mkLine {
  getCell : Z -> option IBufferCell
}.

Record IBuffer : Type := mkBuffer {
  viewportY : Z;
  cursorX : Z;
  cursorY : Z;
  getLine : Z -> option IBufferLine
}.

(** [css_cell] is [_core._renderService.dimensions.css.cell] as
    (width, height) when the whole chain is there. *)
Record Terminal : Type := mkTerminal {
  cols : Z;
  rows : Z;
  options : ITerminalOptions;
  buffer_active : IBuffer;
  css_cell : option (JsNum * JsNum)
}.

(** ** The canvas and its 2D context *)

(** The calls the module makes on the context, in order.  What the raster
    shows is a function of this sequence. *)
Inductive CanvasCall : Type :=
| SetFillStyle (v : option string)
| SetFont (v : string)
| SetTextBaseline (v : string)
| SetGlobalAlpha (v : Q)
| FillRect (x y w h : Q)
| FillText (text : string) (x y : Q).

(** [canvas_id] numbers the [OffscreenCanvas] objects in order of
    construction: two canvases are the same object iff their ids agree. *)
Record OffscreenCanvas : Type := mkCanvas {
  canvas_id : nat;
  canvas_width : Z;
  canvas_height : Z
}.

Record Context2D : Type := mkCtx {
  ctx_canvas : nat;
  calls : list CanvasCall
}.

Definition emit (c : CanvasCall) (ctx : Context2D) : Context2D :=
  mkCtx (ctx_canvas ctx) (calls ctx ++ [c]).

Definition set_fillStyle (v : option string) := emit (SetFillStyle v).
Definition set_font (v : string) := emit (SetFont v).
Definition set_textBaseline (v : string) := emit (SetTextBaseline v).
Definition set_globalAlpha (v : Q) := emit (SetGlobalAlpha v).
Definition fillRect (x y w h : Q) := emit (FillRect x y w h).
Definition fillText (text : string) (x y : Q) := emit (FillText text x y).

(** [a !== b] on values that are a string or undefined. *)
Definition str_neq (a b : option string) : bool :=
  match a, b with
  | Some x, Some y => negb (String.eqb x y)
  | None, None => false
  | _, _ => true
  end.

(** ** The addon *)

Record IOffscreenAddonOptions : Type := mkAddonOptions {
  opt_scaleFactor : option JsNum;
  opt_showCursor : option bool
}.

Record AddonOptions : Type := mkOptions {
  scaleFactor : JsNum;
  showCursor : bool
}.

Record ICaptureOptions : Type := mkCaptureOptions {
  format : option string;
  type : option string;
  quality : option JsNum
}.

(** [_terminal] holds the current state of the terminal object the addon
    references; [allocated] is not a field of the class: it counts the
    [OffscreenCanvas] objects constructed so far and gives the next one its
    identity. *)
Record OffscreenAddon : Type := mkAddon {
  _terminal : option Terminal;
  _canvas : option OffscreenCanvas;
  _ctx : option Context2D;
  _options : AddonOptions;
  _cellWidth : Z;
  _cellHeight : Z;
  _charWidth : Z;
  _charHeight : Z;
  allocated : nat
}.

Definition with_terminal (t : option Terminal) (a : OffscreenAddon) :=
  mkAddon t (_canvas a) (_ctx a) (_options a)
          (_cellWidth a) (_cellHeight a) (_charWidth a) (_charHeight a) (allocated a).

Definition with_canvas (c : option OffscreenCanvas) (x : option Context2D)
    (n : nat) (a : OffscreenAddon) :=
  mkAddon (_terminal a) c x (_options a)
          (_cellWidth a) (_cellHeight a) (_charWidth a) (_charHeight a) n.

Definition with_ctx (x : option Context2D) (a : OffscreenAddon) :=
  mkAddon (_terminal a) (_canvas a) x (_options a)
          (_cellWidth a) (_cellHeight a) (_charWidth a) (_charHeight a) (allocated a).

Definition with_options (o : AddonOptions) (a : OffscreenAddon) :=
  mkAddon (_terminal a) (_canvas a) (_ctx a) o
          (_cellWidth a) (_cellHeight a) (_charWidth a) (_charHeight a) (allocated a).

Definition with_metrics (cw ch : Z) (a : OffscreenAddon) :=
  mkAddon (_terminal a) (_canvas a) (_ctx a) (_options a) cw ch cw ch (allocated a).

(** The terminal object changes under the addon (new content, a resize, a
    new theme); a detached addon sees nothing of it. *)
Definition terminal_changed (t : Terminal) (a : OffscreenAddon) : OffscreenAddon :=
  match _terminal a with
  | Some _ => with_terminal (Some t) a
  | None => a
  end.

Inductive Error : Type :=
| AddonNotActivated
| FailedToCreateCanvas
| UnknownFormat (format : string).

(** What [capture] asks of the platform once the frame is rendered. *)
Inductive Export : Type :=
| CreateImageBitmap (canvas : OffscreenCanvas)
| ConvertToBlob (canvas : OffscreenCanvas) (type : string) (quality : JsNum)
| ReadAsDataURL (canvas : OffscreenCanvas) (type : string) (quality : JsNum).

Definition _validateScaleFactor (value : JsNum) : JsNum :=
  if negb (Number_isFinite value) || num_leb value (Fin 0)
  then Fin 1
  else value.

Definition new_OffscreenAddon (options : option IOffscreenAddonOptions) : OffscreenAddon :=
  mkAddon None None None
    (mkOptions
       (_validateScaleFactor
          (nullish_or (match options with Some o => opt_scaleFactor o | None => None end) (Fin 1)))
       (nullish_or (match options with Some o => opt_showCursor o | None => None end) true))
    0 0 0 0 0%nat.

Definition dispose (a : OffscreenAddon) : OffscreenAddon :=
  with_canvas None None (allocated a) (with_terminal None a).

Definition setOptions (options : IOffscreenAddonOptions) (a : OffscreenAddon) : OffscreenAddon :=
  let a :=
    match opt_scaleFactor options with
    | Some v => with_options (mkOptions (_validateScaleFactor v) (showCursor (_options a))) a
    | None => a
    end in
  let a :=
    match opt_showCursor options with
    | Some v => with_options (mkOptions (scaleFactor (_options a)) v) a
    | None => a
    end in
  with_canvas None None (allocated a) a.

Definition zq (z : Z) : Q := inject_Z z.

Section Rendering.

(** Floating-point multiplication and the two roundings are the platform's.
    The roundings are taken to integers: the metrics of a terminal are
    finite. *)
Variable fmul : JsNum -> JsNum -> JsNum.
Variable Math_ceil : JsNum -> Z.
Variable Math_round : JsNum -> Z.

(** The first half of [_updateDimensions]: the cell size in pixels, from the
    font options, or from the terminal's render service when it has one. *)
Definition measure_cell (terminal : Terminal) (scale : JsNum) : Z * Z :=
  let fontSize := nullish_or (fontSize (options terminal)) (Fin 13) in
  let lineHeight := nullish_or (lineHeight (options terminal)) (Fin 1) in
  let charWidth := Math_ceil (fmul (fmul fontSize (Fin (3 # 5))) scale) in
  let charHeight := Math_ceil (fmul (fmul fontSize lineHeight) scale) in
  match css_cell terminal with
  | Some (w, h) =>
    if num_ltb (Fin 0) w
    then (Math_ceil (fmul w scale), Math_ceil (fmul h scale))
    else (charWidth, charHeight)
  | None => (charWidth, charHeight)
  end.

(** The raster size [_updateDimensions] computes for an attached terminal. *)
Definition computed_size (terminal : Terminal) (scale : JsNum) : Z * Z :=
  (cols terminal * fst (measure_cell terminal scale),
   rows terminal * snd (measure_cell terminal scale)).

(** Whether the current allocation has that size. *)
Definition raster_fits (a : OffscreenAddon) (size : Z * Z) : bool :=
  match _canvas a with
  | None => false
  | Some canvas =>
    (canvas_width canvas =? fst size) && (canvas_height canvas =? snd size)
  end.

Definition _updateDimensions (a : OffscreenAddon) : OffscreenAddon :=
  match _terminal a with
  | None => a
  | Some terminal =>
    let scale := scaleFactor (_options a) in
    let a := with_metrics (fst (measure_cell terminal scale))
                          (snd (measure_cell terminal scale)) a in
    let width := cols terminal * _cellWidth a in
    let height := rows terminal * _cellHeight a in
    let stale :=
      match _canvas a with
      | None => true
      | Some canvas =>
        negb (canvas_width canvas =? width) || negb (canvas_height canvas =? height)
      end in
    if stale
    then
      let id := allocated a in
      with_canvas (Some (mkCanvas id width height)) (Some (mkCtx id [])) (S id) a
    else a
  end.

Definition activate (terminal : Terminal) (a : OffscreenAddon) : OffscreenAddon :=
  _updateDimensions (with_terminal (Some terminal) a).

(** The body of the column loop of [_render]: one cell of [line], at
    column [col] of the row whose top is [y]. *)
Definition render_cell (a : OffscreenAddon) (theme : ITheme)
    (themePalette : list (option string)) (fontSize : Z) (fontFamily : string)
    (line : IBufferLine) (y : Z) (col : Z) (ctx : Context2D) : Context2D :=
  match getCell line col with
  | None => ctx
  | Some cell =>
    let x := col * _cellWidth a in
    let width := getWidth cell in
    if width =? 0 then ctx else
    let fgColor := _getColor cell true theme themePalette in
    let bgColor := _getColor cell false theme themePalette in
    let '(fgColor, bgColor) :=
      if isInverse cell then (bgColor, fgColor) else (fgColor, bgColor) in
    let defaultBg := background theme ?? Some "#000000" in
    let ctx :=
      if str_neq bgColor defaultBg
      then fillRect (zq x) (zq y) (zq (_cellWidth a * width)) (zq (_cellHeight a))
             (set_fillStyle bgColor ctx)
      else ctx in
    let chars := getChars cell in
    if String.eqb chars "" then ctx else
    let fontStyle := "" in
    let fontStyle := if isBold cell then fontStyle ++ "bold " else fontStyle in
    let fontStyle := if isItalic cell then fontStyle ++ "italic " else fontStyle in
    let ctx := set_font (fontStyle ++ num_to_string fontSize ++ "px " ++ fontFamily) ctx in
    let ctx := set_fillStyle fgColor ctx in
    let ctx := if isDim cell then set_globalAlpha (1 # 2) ctx else ctx in
    let textY := (zq y + zq (_cellHeight a - fontSize) / 2)%Q in
    let ctx := fillText chars (zq x) textY ctx in
    let ctx := if isDim cell then set_globalAlpha 1 ctx else ctx in
    let ctx :=
      if isUnderline cell
      then fillRect (zq x) (zq (y + _cellHeight a - 1)) (zq (_cellWidth a * width)) 1 ctx
      else ctx in
    let ctx :=
      if isStrikethrough cell
      then fillRect (zq x) (zq y + zq (_cellHeight a) / 2)%Q (zq (_cellWidth a * width)) 1 ctx
      else ctx in
    let ctx :=
      if isOverline cell
      then fillRect (zq x) (zq y) (zq (_cellWidth a * width)) 1 ctx
      else ctx in
    ctx
  end.

(** The body of the row loop of [_render]. *)
Definition render_row (a : OffscreenAddon) (terminal : Terminal) (theme : ITheme)
    (themePalette : list (option string)) (fontSize : Z) (fontFamily : string)
    (row : Z) (ctx : Context2D) : Context2D :=
  let buffer := buffer_active terminal in
  let bufferRow := viewportY buffer + row in
  match getLine buffer bufferRow with
  | None => ctx
  | Some line =>
    let y := row * _cellHeight a in
    for_range (cols terminal)
      (render_cell a theme themePalette fontSize fontFamily line y) ctx
  end.

(** The cursor block that ends [_render]. *)
Definition render_cursor (a : OffscreenAddon) (terminal : Terminal) (theme : ITheme)
    (ctx : Context2D) : Context2D :=
  let buffer := buffer_active terminal in
  if showCursor (_options a) && (0 <=? cursorY buffer) then
    let cursorX := cursorX buffer in
    let cursorY := cursorY buffer in
    if (0 <=? cursorX) && (cursorX <? cols terminal)
       && (0 <=? cursorY) && (cursorY <? rows terminal)
    then
      let x := cursorX * _cellWidth a in
      let y := cursorY * _cellHeight a in
      let ctx := set_fillStyle (cursor theme ?? Some "#ffffff") ctx in
      let ctx := set_globalAlpha (1 # 2) ctx in
      let ctx := fillRect (zq x) (zq y) (zq (_cellWidth a)) (zq (_cellHeight a)) ctx in
      let ctx := set_globalAlpha 1 ctx in
      ctx
    else ctx
  else ctx.

(** [_render] from the clearing of the canvas to the end of the row loop. *)
Definition render_content (a : OffscreenAddon) (terminal : Terminal)
    (canvas : OffscreenCanvas) (theme : ITheme) (ctx : Context2D) : Context2D :=
  let themePalette := _buildThemePalette theme in
  let scale := scaleFactor (_options a) in
  let fontSize :=
    Math_round (fmul (nullish_or (fontSize (options terminal)) (Fin 13)) scale) in
  let fontFamily :=
    nullish_or (fontFamily (options terminal)) "courier-new, courier, monospace" in
  let ctx := set_fillStyle (background theme ?? Some "#000000") ctx in
  let ctx := fillRect 0 0 (zq (canvas_width canvas)) (zq (canvas_height canvas)) ctx in
  let ctx := set_textBaseline "top" ctx in
  let ctx := set_font (num_to_string fontSize ++ "px " ++ fontFamily) ctx in
  for_range (rows terminal)
    (render_row a terminal theme themePalette fontSize fontFamily) ctx.

Definition _render (a : OffscreenAddon) : OffscreenAddon :=
  match _terminal a with
  | None => a
  | Some terminal =>
    let a := _updateDimensions a in
    match _canvas a, _ctx a with
    | Some canvas, Some ctx =>
      let theme := nullish_or (theme (options terminal)) empty_theme in
      let ctx := render_content a terminal canvas theme ctx in
      let ctx := render_cursor a terminal theme ctx in
      with_ctx (Some ctx) a
    | _, _ => a
    end
  end.

(** [capture]: the addon after the call, and the rejection or the export
    asked of the platform. *)
Definition capture (options : option ICaptureOptions) (a : OffscreenAddon)
    : OffscreenAddon * (Error + Export) :=
  match _terminal a with
  | None => (a, inl AddonNotActivated)
  | Some _ =>
    let a := _render a in
    match _canvas a with
    | None => (a, inl FailedToCreateCanvas)
    | Some canvas =>
      let format :=
        nullish_or (match options with Some o => format o | None => None end) "imageBitmap" in
      let type :=
        nullish_or (match options with Some o => type o | None => None end) "image/png" in
      let quality :=
        Math_max (Fin 0)
          (Math_min (Fin 1)
             (nullish_or (match options with Some o => quality o | None => None end)
                         (Fin (23 # 25)))) in
      if String.eqb format "imageBitmap" then (a, inr (CreateImageBitmap canvas))
      else if String.eqb format "dataURL" then (a, inr (ReadAsDataURL canvas type quality))
      else if String.eqb format "blob" then (a, inr (ConvertToBlob canvas type quality))
      else (a, inl (UnknownFormat format))
    end
  end.

Definition getCanvas (a : OffscreenAddon) : OffscreenAddon * (Error + OffscreenCanvas) :=
  match _terminal a with
  | None => (a, inl AddonNotActivated)
  | Some _ =>
    let a := _render a in
    match _canvas a with
    | None => (a, inl FailedToCreateCanvas)
    | Some canvas => (a, inr canvas)
    end
  end.

End Rendering.


(** ** Vocabulary of the statements *)

Definition opt_str_eqb (a b : option string) : bool := negb (str_neq a b).

(** The named theme colour that overrides palette index [i]. *)
Definition theme_slot (theme : ITheme) (i : Z) : option string :=
  match i with
  | 0 => black theme
  | 1 => red theme
  | 2 => green theme
  | 3 => yellow theme
  | 4 => blue theme
  | 5 => magenta theme
  | 6 => cyan theme
  | 7 => white theme
  | 8 => brightBlack theme
  | 9 => brightRed theme
  | 10 => brightGreen theme
  | 11 => brightYellow theme
  | 12 => brightBlue theme
  | 13 => brightMagenta theme
  | 14 => brightCyan theme
  | 15 => brightWhite theme
  | _ => None
  end.

(** The three mode predicates of the channel being resolved, and its colour
    number. *)
Definition mode_default (cell : IBufferCell) (isForeground : bool) : bool :=
  if isForeground then isFgDefault cell else isBgDefault cell.
Definition mode_rgb (cell : IBufferCell) (isForeground : bool) : bool :=
  if isForeground then isFgRGB cell else isBgRGB cell.
Definition mode_palette (cell : IBufferCell) (isForeground : bool) : bool :=
  if isForeground then isFgPalette cell else isBgPalette cell.
Definition color_number (cell : IBufferCell) (isForeground : bool) : Z :=
  if isForeground then getFgColor cell else getBgColor cell.

(** What a Default descriptor resolves to. *)
Definition default_color (theme : ITheme) (isForeground : bool) : string :=
  if isForeground
  then nullish_or (foreground theme) "#ffffff"
  else nullish_or (background theme) "#000000".

(** [0 <= q <= 1]. *)
Definition num_in_unit (q : JsNum) : bool :=
  num_leb (Fin 0) q && num_leb q (Fin 1).

(** The quality handed to the encoder, when an encoding is asked for. *)
Definition exported_quality (r : Error + Export) : option JsNum :=
  match r with
  | inr (ConvertToBlob _ _ q) => Some q
  | inr (ReadAsDataURL _ _ q) => Some q
  | _ => None
  end.

Definition supported_format (f : string) : Prop :=
  f = "imageBitmap" \/ f = "dataURL" \/ f = "blob".

Definition when {A : Type} (b : bool) (l : list A) : list A :=
  if b then l else [].

(** The calls one cell adds to the context, as a list: what [render_cell]
    is shown to append. *)
Definition cell_calls (cw ch : Z) (theme : ITheme) (themePalette : list (option string))
    (fontSize : Z) (fontFamily : string) (cell : IBufferCell) (y col : Z)
    : list CanvasCall :=
  let x := zq (col * cw) in
  let w := zq (cw * getWidth cell) in
  let fg := _getColor cell true theme themePalette in
  let bg := _getColor cell false theme themePalette in
  let glyphColor := if isInverse cell then bg else fg in
  let fillColor := if isInverse cell then fg else bg in
  if getWidth cell =? 0 then [] else
  when (str_neq fillColor (background theme ?? Some "#000000"))
       [SetFillStyle fillColor; FillRect x (zq y) w (zq ch)]
  ++
  if String.eqb (getChars cell) "" then [] else
  [SetFont ((if isItalic cell then (if isBold cell then "bold " else "") ++ "italic "
             else if isBold cell then "bold " else "")
            ++ num_to_string fontSize ++ "px " ++ fontFamily);
   SetFillStyle glyphColor]
  ++ when (isDim cell) [SetGlobalAlpha (1 # 2)]
  ++ [FillText (getChars cell) x (zq y + zq (ch - fontSize) / 2)%Q]
  ++ when (isDim cell) [SetGlobalAlpha 1]
  ++ when (isUnderline cell) [FillRect x (zq (y + ch - 1)) w 1]
  ++ when (isStrikethrough cell) [FillRect x (zq y + zq ch / 2)%Q w 1]
  ++ when (isOverline cell) [FillRect x (zq y) w 1].

(** The cursor highlight: a cell-sized rectangle at 50% alpha in the cursor
    colour. *)
Definition cursor_highlight (cw ch : Z) (terminal : Terminal) : list CanvasCall :=
  let theme := nullish_or (theme (options terminal)) empty_theme in
  let b := buffer_active terminal in
  [ SetFillStyle (Some (nullish_or (cursor theme) "#ffffff"));
    SetGlobalAlpha (1 # 2);
    FillRect (zq (cursorX b * cw)) (zq (cursorY b * ch)) (zq cw) (zq ch);
    SetGlobalAlpha 1 ].

(** The cursor lies in the viewport. *)
Definition cursor_in_viewport (terminal : Terminal) : bool :=
  let b := buffer_active terminal in
  (0 <=? cursorX b) && (cursorX b <? cols terminal)
  && (0 <=? cursorY b) && (cursorY b <? rows terminal).

(** The same terminal with the cursor elsewhere. *)
Definition move_cursor (cx cy : Z) (t : Terminal) : Terminal :=
  mkTerminal (cols t) (rows t) (options t)
    (mkBuffer (viewportY (buffer_active t)) cx cy (getLine (buffer_active t)))
    (css_cell t).

(** The same addon with the cursor switched off. *)
Definition cursor_hidden (a : OffscreenAddon) : OffscreenAddon :=
  with_options (mkOptions (scaleFactor (_options a)) false) a.

(** A canvas never goes without its context: the two fields are set
    together. *)
Definition has_context (a : OffscreenAddon) : Prop :=
  _canvas a <> None -> _ctx a <> None.

(** The current canvas was constructed before any canvas still to come. *)
Definition ids_fresh (a : OffscreenAddon) : Prop :=
  forall c, _canvas a = Some c -> (canvas_id c < allocated a)%nat.

(** Two cells that differ at most in colours and inverse flag. *)
Definition same_glyph (c1 c2 : IBufferCell) : Prop :=
  getWidth c1 = getWidth c2 /\ getChars c1 = getChars c2
  /\ isBold c1 = isBold c2 /\ isItalic c1 = isItalic c2 /\ isDim c1 = isDim c2
  /\ isUnderline c1 = isUnderline c2 /\ isStrikethrough c1 = isStrikethrough c2
  /\ isOverline c1 = isOverline c2.

(** A draw call that starts at column [col] and, for a rectangle, is
    [span] cells wide. *)
Definition spans (cw col span : Z) (c : CanvasCall) : Prop :=
  match c with
  | FillRect x _ w _ => x = zq (col * cw) /\ w = zq (cw * span)
  | FillText _ x _ => x = zq (col * cw)
  | _ => True
  end.

Definition is_fillText (c : CanvasCall) : bool :=
  match c with
  | FillText _ _ _ => true
  | _ => false
  end.

Definition is_fillRect (c : CanvasCall) : bool :=
  match c with
  | FillRect _ _ _ _ => true
  | _ => false
  end.

(** Exact rational arithmetic, to run the model on examples. *)
Definition exact_mul (a b : JsNum) : JsNum :=
  match a, b with
  | Fin x, Fin y => Fin (Qred (x * y))
  | _, _ => NaN
  end.

Definition exact_ceil (a : JsNum) : Z :=
  match a with
  | Fin x => Qceiling x
  | _ => 0
  end.

Definition exact_round (a : JsNum) : Z :=
  match a with
  | Fin x => Qfloor (x + (1 # 2))
  | _ => 0
  end.


(** Cells to run the model on: a colour descriptor sets exactly one mode
    predicate of its channel (none for [NoMode]). *)
Inductive Descriptor : Type :=
| Default
| Palette (i : Z)
| RGB (v : Z)
| NoMode.

Definition descriptor_number (d : Descriptor) : Z :=
  match d with
  | Palette i => i
  | RGB v => v
  | _ => -1
  end.

Definition is_Default (d : Descriptor) : bool :=
  match d with Default => true | _ => false end.
Definition is_RGB (d : Descriptor) : bool :=
  match d with RGB _ => true | _ => false end.
Definition is_Palette (d : Descriptor) : bool :=
  match d with Palette _ => true | _ => false end.

Definition plain_cell (chars : string) (w : Z) (fg bg : Descriptor) (inverse : bool)
    : IBufferCell :=
  mkCell w chars (descriptor_number fg) (descriptor_number bg)
         (is_Default fg) (is_RGB fg) (is_Palette fg)
         (is_Default bg) (is_RGB bg) (is_Palette bg)
         false false false false false false inverse.

(** A 4 x 2 terminal without theme: each row holds a wide glyph and its
    continuation, an inverse cell and an empty cell. *)
Definition sample_line : IBufferLine :=
  mkLine (fun col =>
    match col with
    | 0 => Some (plain_cell "W" 2 (Palette 1) (Palette 4) false)
    | 1 => Some (plain_cell "" 0 Default Default false)
    | 2 => Some (plain_cell "A" 1 (RGB 1193046) Default true)
    | 3 => Some (plain_cell "" 1 Default Default false)
    | _ => None
    end).

Definition sample_buffer (cx cy : Z) : IBuffer :=
  mkBuffer 0 cx cy (fun r => if (0 <=? r) && (r <? 2) then Some sample_line else None).

Definition sample_terminal (cx cy : Z) : Terminal :=
  mkTerminal 4 2 (mkTerminalOptions None None None None) (sample_buffer cx cy) None.

Definition sample_addon (cx cy : Z) : OffscreenAddon :=
  activate exact_mul exact_ceil (sample_terminal cx cy) (new_OffscreenAddon None).

(** ** The other public methods *)

Record Dimensions : Type := mkDimensions {
  dim_width : Z;
  dim_height : Z;
  dim_cols : Z;
  dim_rows : Z
}.

Definition getDimensions (a : OffscreenAddon) : Dimensions :=
  mkDimensions
    (nullish_or (option_map canvas_width (_canvas a)) 0)
    (nullish_or (option_map canvas_height (_canvas a)) 0)
    (nullish_or (option_map cols (_terminal a)) 0)
    (nullish_or (option_map rows (_terminal a)) 0).

(** The destination rectangle of [renderTo]. *)
Record IRenderToOptions : Type := mkRenderToOptions {
  rt_x : option JsNum;
  rt_y : option JsNum;
  rt_width : option JsNum;
  rt_height : option JsNum
}.

(** The call [renderTo] makes on the caller's context. *)
Inductive TargetCall : Type :=
| DrawImage (canvas : OffscreenCanvas) (x y w h : JsNum).

Section Blit.

Variable fmul : JsNum -> JsNum -> JsNum.
Variable Math_ceil : JsNum -> Z.
Variable Math_round : JsNum -> Z.

(** [targetCtx] is the list of calls already made on the caller's context;
    an exception of [getCanvas] leaves it as it is. *)
Definition renderTo (targetCtx : list TargetCall) (options : option IRenderToOptions)
    (a : OffscreenAddon) : OffscreenAddon * (Error + list TargetCall) :=
  match getCanvas fmul Math_ceil Math_round a with
  | (a, inl e) => (a, inl e)
  | (a, inr canvas) =>
    let x := nullish_or (match options with Some o => rt_x o | None => None end) (Fin 0) in
    let y := nullish_or (match options with Some o => rt_y o | None => None end) (Fin 0) in
    let width :=
      nullish_or (match options with Some o => rt_width o | None => None end)
                 (Fin (zq (canvas_width canvas))) in
    let height :=
      nullish_or (match options with Some o => rt_height o | None => None end)
                 (Fin (zq (canvas_height canvas))) in
    (a, inr (targetCtx ++ [DrawImage canvas x y width height])%list)
  end.

(** The font size in pixels a frame is drawn with. *)
Definition frame_fontSize (a : OffscreenAddon) (terminal : Terminal) : Z :=
  Math_round (fmul (nullish_or (fontSize (options terminal)) (Fin 13))
                   (scaleFactor (_options a))).

End Blit.

(** ** Frames as lists of calls *)

(** The calls of one row of cells, column by column. *)
Definition line_calls (cw ch : Z) (theme : ITheme) (themePalette : list (option string))
    (fontSize : Z) (fontFamily : string) (line : IBufferLine) (y ncols : Z)
    : list CanvasCall :=
  flat_map (fun col =>
              match getCell line col with
              | None => []
              | Some cell =>
                cell_calls cw ch theme themePalette fontSize fontFamily cell y col
              end)
           (range ncols).

(** The calls of the visible rows, top to bottom. *)
Definition rows_calls (cw ch : Z) (terminal : Terminal) (theme : ITheme)
    (themePalette : list (option string)) (fontSize : Z) (fontFamily : string)
    : list CanvasCall :=
  flat_map (fun row =>
              match getLine (buffer_active terminal)
                            (viewportY (buffer_active terminal) + row) with
              | None => []
              | Some line =>
                line_calls cw ch theme themePalette fontSize fontFamily line
                           (row * ch) (cols terminal)
              end)
           (range (rows terminal)).

(** The calls that open a frame: the clearing of the canvas, the baseline
    and the base font. *)
Definition setup_calls (canvas : OffscreenCanvas) (theme : ITheme)
    (fontSize : Z) (fontFamily : string) : list CanvasCall :=
  [ SetFillStyle (Some (nullish_or (background theme) "#000000"));
    FillRect 0 0 (zq (canvas_width canvas)) (zq (canvas_height canvas));
    SetTextBaseline "top";
    SetFont (num_to_string fontSize ++ "px " ++ fontFamily) ].

(** A whole frame: the opening, the cells, the cursor. *)
Definition frame_calls (a : OffscreenAddon) (terminal : Terminal)
    (canvas : OffscreenCanvas) (fontSize : Z) : list CanvasCall :=
  let theme := nullish_or (theme (options terminal)) empty_theme in
  let fontFamily :=
    nullish_or (fontFamily (options terminal)) "courier-new, courier, monospace" in
  setup_calls canvas theme fontSize fontFamily
  ++ rows_calls (_cellWidth a) (_cellHeight a) terminal theme
       (_buildThemePalette theme) fontSize fontFamily
  ++ when (showCursor (_options a) && cursor_in_viewport terminal)
       (cursor_highlight (_cellWidth a) (_cellHeight a) terminal).

(** The alpha a sequence of calls leaves the context with, from [alpha]. *)
Definition final_alpha (cs : list CanvasCall) (alpha : Q) : Q :=
  fold_left (fun acc c => match c with SetGlobalAlpha v => v | _ => acc end) cs alpha.

(** A context starts at alpha 1.0. *)
Definition ctx_alpha (ctx : Context2D) : Q := final_alpha (calls ctx) 1.

(** A scale factor the addon accepts: finite and positive. *)
Definition scale_valid (v : JsNum) : bool :=
  Number_isFinite v && num_ltb (Fin 0) v.

(** A draw call anchored at a cell of the [ncols] x [nrows] grid: at the
    cell's left edge, and at its top, its underline row, its middle, or the
    glyph offset. *)
Definition at_grid_cell (cw ch fontSize ncols nrows : Z) (c : CanvasCall) : Prop :=
  match c with
  | FillRect x y _ _ =>
    exists col row, 0 <= col < ncols /\ 0 <= row < nrows
      /\ x = zq (col * cw)
      /\ (y = zq (row * ch) \/ y = zq (row * ch + ch - 1)
          \/ y = (zq (row * ch) + zq ch / 2)%Q)
  | FillText _ x y =>
    exists col row, 0 <= col < ncols /\ 0 <= row < nrows
      /\ x = zq (col * cw)
      /\ y = (zq (row * ch) + zq (ch - fontSize) / 2)%Q
  | _ => True
  end.

(** Two terminals that show the same cells in their viewports. *)
Definition same_viewport (t1 t2 : Terminal) : Prop :=
  forall row, 0 <= row < rows t1 ->
    match getLine (buffer_active t1) (viewportY (buffer_active t1) + row),
          getLine (buffer_active t2) (viewportY (buffer_active t2) + row) with
    | None, None => True
    | Some l1, Some l2 => forall col, 0 <= col < cols t1 -> getCell l1 col = getCell l2 col
    | _, _ => False
    end.

(** The sample terminal scrolled: its two rows sit [k] lines down the
    buffer, and the viewport starts there. *)
Definition scrolled_terminal (k cx cy : Z) : Terminal :=
  mkTerminal 4 2 (mkTerminalOptions None None None None)
    (mkBuffer k cx cy
       (fun r => if (k <=? r) && (r <? k + 2) then Some sample_line else None))
    None.

(** The canvas an export is taken from. *)
Definition export_canvas (e : Export) : OffscreenCanvas :=
  match e with
  | CreateImageBitmap c => c
  | ConvertToBlob c _ _ => c
  | ReadAsDataURL c _ _ => c
  end.

(** Each fill of a sequence of calls with the alpha in force when it is
    made, the context being at [alpha] before the sequence. *)
Fixpoint draw_alphas (cs : list CanvasCall) (alpha : Q) : list (CanvasCall * Q) :=
  match cs with
  | [] => []
  | SetGlobalAlpha v :: rest => draw_alphas rest v
  | (FillRect _ _ _ _ as c) :: rest => (c, alpha) :: draw_alphas rest alpha
  | (FillText _ _ _ as c) :: rest => (c, alpha) :: draw_alphas rest alpha
  | _ :: rest => draw_alphas rest alpha
  end.

(** Glyphs are drawn at half alpha in a dim cell and at full alpha
    otherwise; rectangles always at full alpha. *)
Definition dim_applies_to_glyph (dim : bool) (d : CanvasCall * Q) : Prop :=
  match fst d with
  | FillText _ _ _ => snd d = (if dim then 1 # 2 else 1)%Q
  | _ => snd d = 1%Q
  end.

(** A terminal whose buffer has no line at all. *)
Definition blank_terminal : Terminal :=
  mkTerminal 4 2 (mkTerminalOptions None None None None)
    (mkBuffer 0 1 0 (fun _ => None)) None.
(** ** Arrays and loops *)

Lemma range_In (n i : Z) : 0 <= i < n -> In i (range n).
Proof.
  intros H. unfold range. apply in_map_iff.
  exists (Z.to_nat i). split; [lia|]. apply in_seq. lia.
Qed.

Lemma range_forallb (n : Z) (p : Z -> bool) :
  forallb p (range n) = true -> forall i, 0 <= i < n -> p i = true.
Proof.
  intros H i Hi. rewrite forallb_forall in H. apply H, range_In, Hi.
Qed.

Lemma idx_out_of_range {A : Type} (arr : list A) (i : Z) :
  Z.of_nat (List.length arr) <= i -> idx arr i = None.
Proof.
  intros H. unfold idx. destruct (i <? 0) eqn:E; [reflexivity|].
  apply nth_error_None. lia.
Qed.


Lemma opt_str_eqb_eq (a b : option string) : opt_str_eqb a b = true -> a = b.
Proof.
  unfold opt_str_eqb, str_neq. destruct a as [x|], b as [y|]; simpl; try discriminate; auto.
  rewrite negb_involutive. intros H. apply String.eqb_eq in H. now subst.
Qed.

(** ** Bitwise operators *)

Lemma to_int32_mod (v : Z) : to_int32 v mod 2 ^ 32 = v mod 2 ^ 32.
Proof.
  unfold to_int32. destruct (2 ^ 31 <=? v mod 2 ^ 32).
  - replace (v mod 2 ^ 32 - 2 ^ 32) with (v mod 2 ^ 32 + (-1) * 2 ^ 32) by lia.
    rewrite Z_mod_plus_full. apply Z.mod_mod. lia.
  - apply Z.mod_mod. lia.
Qed.

Lemma to_int32_testbit (v n : Z) :
  0 <= n < 32 -> Z.testbit (to_int32 v) n = Z.testbit v n.
Proof.
  intros H.
  rewrite <- (Z.mod_pow2_bits_low (to_int32 v) 32 n) by lia.
  rewrite to_int32_mod. apply Z.mod_pow2_bits_low. lia.
Qed.

Lemma byte_of_shift (v k : Z) :
  0 <= k <= 24 -> js_and (js_sar v k) 255 = Z.land (Z.shiftr v k) 255.
Proof.
  intros Hk. unfold js_and, js_sar.
  change (to_int32 255) with (Z.ones 8). change 255 with (Z.ones 8).
  apply Z.bits_inj'. intros n Hn.
  rewrite !Z.land_spec.
  destruct (Z_lt_dec n 8) as [Hlt|Hge].
  - rewrite to_int32_testbit by lia.
    rewrite !Z.shiftr_spec by lia.
    rewrite to_int32_testbit by lia. reflexivity.
  - rewrite Z.ones_spec_high by lia. now rewrite !andb_false_r.
Qed.

Lemma byte_of_low (v : Z) : js_and v 255 = Z.land v 255.
Proof.
  unfold js_and. change (to_int32 255) with (Z.ones 8). change 255 with (Z.ones 8).
  apply Z.bits_inj'. intros n Hn.
  rewrite !Z.land_spec.
  destruct (Z_lt_dec n 8) as [Hlt|Hge].
  - now rewrite to_int32_testbit by lia.
  - rewrite Z.ones_spec_high by lia. now rewrite !andb_false_r.
Qed.

(** ** The built-in palette *)

(** C2. The built-in palette has 256 entries: the 16 ANSI defaults, then the
    6x6x6 cube over the levels 0, 95, 135, 175, 215, 255 (red varying
    slowest), then the 24 greys 8 + 10k; entry 16 is rgb(0, 0, 0), entry 232
    is rgb(8, 8, 8), entry 255 is rgb(238, 238, 238); and two computations of
    it agree. *)
Theorem builtin_palette_layout :
  List.length (generate256Colors tt) = 256%nat
  /\ (forall i, 0 <= i < 16 ->
        idx (generate256Colors tt) i = idx DEFAULT_ANSI_COLORS i)
  /\ levels = [0; 95; 135; 175; 215; 255]
  /\ (forall r g b, 0 <= r < 6 -> 0 <= g < 6 -> 0 <= b < 6 ->
        idx (generate256Colors tt) (16 + 36 * r + 6 * g + b)
        = Some (rgb_tpl (idx levels r) (idx levels g) (idx levels b)))
  /\ (forall k, 0 <= k < 24 ->
        idx (generate256Colors tt) (232 + k)
        = Some (rgb_tpl (Some (8 + 10 * k)) (Some (8 + 10 * k)) (Some (8 + 10 * k))))
  /\ idx (generate256Colors tt) 16 = Some "rgb(0, 0, 0)"
  /\ idx (generate256Colors tt) 232 = Some "rgb(8, 8, 8)"
  /\ idx (generate256Colors tt) 255 = Some "rgb(238, 238, 238)"
  /\ (forall u v : unit, generate256Colors u = generate256Colors v).
Proof.
  repeat split; try reflexivity.
  - intros i Hi. apply opt_str_eqb_eq.
    apply (range_forallb 16
             (fun i => opt_str_eqb (idx (generate256Colors tt) i)
                                   (idx DEFAULT_ANSI_COLORS i))); [|exact Hi].
    vm_compute. reflexivity.
  - intros r g b Hr Hg Hb. apply opt_str_eqb_eq.
    pose (p := fun r g b =>
      opt_str_eqb (idx (generate256Colors tt) (16 + 36 * r + 6 * g + b))
                  (Some (rgb_tpl (idx levels r) (idx levels g) (idx levels b)))).
    change (p r g b = true).
    apply (range_forallb 6 (p r g)); [|exact Hb].
    apply (range_forallb 6 (fun g => forallb (p r g) (range 6))); [|exact Hg].
    apply (range_forallb 6
             (fun r => forallb (fun g => forallb (p r g) (range 6)) (range 6)));
      [|exact Hr].
    vm_compute. reflexivity.
  - intros k Hk. apply opt_str_eqb_eq.
    apply (range_forallb 24
             (fun k => opt_str_eqb (idx (generate256Colors tt) (232 + k))
                         (Some (rgb_tpl (Some (8 + 10 * k)) (Some (8 + 10 * k))
                                        (Some (8 + 10 * k)))))); [|exact Hk].
    vm_compute. reflexivity.
Qed.

Lemma builtin_palette_layout_witness :
  idx (generate256Colors tt) 1 = idx DEFAULT_ANSI_COLORS 1
  /\ idx (generate256Colors tt) (16 + 36 * 5 + 6 * 0 + 3)
     = Some (rgb_tpl (idx levels 5) (idx levels 0) (idx levels 3))
  /\ idx (generate256Colors tt) (232 + 23)
     = Some (rgb_tpl (Some (8 + 10 * 23)) (Some (8 + 10 * 23)) (Some (8 + 10 * 23))).
Proof.
  destruct builtin_palette_layout as (_ & Hansi & _ & Hcube & Hgrey & _).
  split; [apply Hansi; lia|].
  split; [apply Hcube; lia|].
  apply Hgrey; lia.
Defined.

(** ** Colour resolution *)


Lemma theme_band_entry (theme : ITheme) (i : Z) :
  0 <= i < 16 ->
  idx_opt (_buildThemePalette theme) i = theme_slot theme i ?? idx DEFAULT_ANSI_COLORS i.
Proof.
  intros H.
  assert (i = 0 \/ i = 1 \/ i = 2 \/ i = 3 \/ i = 4 \/ i = 5 \/ i = 6 \/ i = 7 \/
          i = 8 \/ i = 9 \/ i = 10 \/ i = 11 \/ i = 12 \/ i = 13 \/ i = 14 \/ i = 15)
    as Hcases by lia.
  repeat (destruct Hcases as [-> | Hcases]; [reflexivity|]).
  subst i. reflexivity.
Qed.

Lemma builtin_entry_defined (i : Z) :
  0 <= i < 256 -> exists s, idx PALETTE_256 i = Some s.
Proof.
  intros H. unfold idx.
  destruct (i <? 0) eqn:E; [lia|].
  destruct (nth_error PALETTE_256 (Z.to_nat i)) as [s|] eqn:En; [now exists s|].
  apply nth_error_None in En.
  change (List.length PALETTE_256) with 256%nat in En. lia.
Qed.

(** C1. Colour resolution by variant: Default gives the theme's foreground or
    background (else white or black); Palette(i), i < 16, gives the theme's
    named colour i when present, else the built-in default i (so index 1 is
    the theme's red, else '#cd0000'); Palette(i), 16 <= i <= 255, gives
    entry i of the built-in table whatever the theme; RGB(v) gives the
    colour with channels (v >> 16) & 0xff, (v >> 8) & 0xff, v & 0xff; a
    descriptor of no recognised variant resolves as Default does. *)
Theorem getColor_resolution (cell : IBufferCell) (isForeground : bool) (theme : ITheme) :
  let resolved := _getColor cell isForeground theme (_buildThemePalette theme) in
  let i := color_number cell isForeground in
  (mode_default cell isForeground = true ->
     resolved = Some (default_color theme isForeground))
  /\ (mode_default cell isForeground = false ->
      mode_rgb cell isForeground = false ->
      mode_palette cell isForeground = true ->
      0 <= i < 16 ->
        resolved = theme_slot theme i ?? idx DEFAULT_ANSI_COLORS i
        /\ (i = 1 -> resolved = red theme ?? Some "#cd0000"))
  /\ (mode_default cell isForeground = false ->
      mode_rgb cell isForeground = false ->
      mode_palette cell isForeground = true ->
      16 <= i <= 255 ->
        (exists s, idx PALETTE_256 i = Some s /\ resolved = Some s)
        /\ forall theme' themePalette',
             _getColor cell isForeground theme' themePalette' = resolved)
  /\ (mode_default cell isForeground = false ->
      mode_rgb cell isForeground = true ->
        resolved = Some (rgb_tpl (Some (Z.land (Z.shiftr i 16) 255))
                                 (Some (Z.land (Z.shiftr i 8) 255))
                                 (Some (Z.land i 255))))
  /\ (mode_default cell isForeground = false ->
      mode_rgb cell isForeground = false ->
      mode_palette cell isForeground = false ->
        resolved = Some (default_color theme isForeground)).
Proof.
  unfold mode_default, mode_rgb, mode_palette, color_number, default_color, _getColor.
  cbv zeta.
  split; [|split; [|split; [|split]]].
  - intros ->. destruct isForeground;
      [destruct (foreground theme)|destruct (background theme)]; reflexivity.
  - intros -> -> -> Hi.
    replace (_ <? 16) with true by (symmetry; apply Z.ltb_lt; lia).
    rewrite theme_band_entry by exact Hi.
    split; [reflexivity|]. intros ->. reflexivity.
  - intros -> -> -> Hi.
    replace (_ <? 16) with false by (symmetry; apply Z.ltb_ge; lia).
    split.
    + destruct (builtin_entry_defined (if isForeground then getFgColor cell else getBgColor cell))
        as [s Hs]; [lia|].
      exists s. split; [exact Hs|]. rewrite Hs. reflexivity.
    + intros theme' themePalette'. reflexivity.
  - intros -> ->.
    rewrite !byte_of_shift by lia. rewrite byte_of_low. reflexivity.
  - intros -> -> ->. destruct isForeground;
      [destruct (foreground theme)|destruct (background theme)]; reflexivity.
Qed.

Lemma getColor_resolution_witness :
  let red_theme :=
    mkTheme (Some "#eeeeee") None None None (Some "#aa0000") None None None None None
            None None None None None None None None None in
  let resolve d isFg theme :=
    _getColor (plain_cell "A" 1 d d false) isFg theme (_buildThemePalette theme) in
  resolve Default true red_theme = Some "#eeeeee"
  /\ resolve Default false red_theme = Some "#000000"
  /\ resolve (Palette 1) true red_theme = Some "#aa0000"
  /\ resolve (Palette 1) true empty_theme = Some "#cd0000"
  /\ resolve (Palette 200) false red_theme = Some "rgb(255, 0, 215)"
  /\ resolve (RGB 1193046) true red_theme = Some "rgb(18, 52, 86)"
  /\ resolve NoMode true red_theme = Some "#eeeeee".
Proof.
  cbv zeta.
  split.
  { destruct (getColor_resolution (plain_cell "A" 1 Default Default false) true
                (mkTheme (Some "#eeeeee") None None None (Some "#aa0000") None None
                         None None None None None None None None None None None None))
      as (H & _).
    exact (H eq_refl). }
  split.
  { destruct (getColor_resolution (plain_cell "A" 1 Default Default false) false
                (mkTheme (Some "#eeeeee") None None None (Some "#aa0000") None None
                         None None None None None None None None None None None None))
      as (H & _).
    exact (H eq_refl). }
  split.
  { destruct (getColor_resolution (plain_cell "A" 1 (Palette 1) (Palette 1) false) true
                (mkTheme (Some "#eeeeee") None None None (Some "#aa0000") None None
                         None None None None None None None None None None None None))
      as (_ & H & _).
    destruct (H eq_refl eq_refl eq_refl ltac:(cbn; lia)) as [_ H1].
    exact (H1 eq_refl). }
  split.
  { destruct (getColor_resolution (plain_cell "A" 1 (Palette 1) (Palette 1) false) true
                empty_theme) as (_ & H & _).
    destruct (H eq_refl eq_refl eq_refl ltac:(cbn; lia)) as [H1 _].
    exact H1. }
  split.
  { destruct (getColor_resolution (plain_cell "A" 1 (Palette 200) (Palette 200) false)
                false (mkTheme (Some "#eeeeee") None None None (Some "#aa0000") None None
                         None None None None None None None None None None None None))
      as (_ & _ & Hext & _).
    destruct (Hext eq_refl eq_refl eq_refl ltac:(cbn; lia)) as [(s & Hs & Hr) _].
    rewrite Hr, <- Hs. reflexivity. }
  split.
  { destruct (getColor_resolution (plain_cell "A" 1 (RGB 1193046) (RGB 1193046) false) true
                (mkTheme (Some "#eeeeee") None None None (Some "#aa0000") None None
                         None None None None None None None None None None None None))
      as (_ & _ & _ & H & _).
    exact (H eq_refl eq_refl). }
  destruct (getColor_resolution (plain_cell "A" 1 NoMode NoMode false) true
              (mkTheme (Some "#eeeeee") None None None (Some "#aa0000") None None
                       None None None None None None None None None None None None))
    as (_ & _ & _ & _ & H).
  exact (H eq_refl eq_refl eq_refl).
Defined.

(** C10. A palette index beyond the 256-entry table does not make resolution
    fail: it resolves to '#ffffff', for the foreground and for the background
    alike. *)
Theorem getColor_beyond_table (cell : IBufferCell) (isForeground : bool)
    (theme : ITheme) (themePalette : list (option string)) :
  mode_default cell isForeground = false ->
  mode_rgb cell isForeground = false ->
  mode_palette cell isForeground = true ->
  255 < color_number cell isForeground ->
  _getColor cell isForeground theme themePalette = Some "#ffffff".
Proof.
  unfold mode_default, mode_rgb, mode_palette, color_number, _getColor.
  intros -> -> -> Hi.
  replace (_ <? 16) with false by (symmetry; apply Z.ltb_ge; lia).
  rewrite idx_out_of_range; [reflexivity|].
  change (List.length PALETTE_256) with 256%nat. lia.
Qed.

Lemma getColor_beyond_table_witness :
  _getColor (plain_cell "A" 1 (Palette 300) (Palette 256) false) true empty_theme
            (_buildThemePalette empty_theme) = Some "#ffffff"
  /\ _getColor (plain_cell "A" 1 (Palette 300) (Palette 256) false) false empty_theme
               (_buildThemePalette empty_theme) = Some "#ffffff".
Proof.
  split; apply getColor_beyond_table; try reflexivity; cbn; lia.
Defined.

(** ** Cells *)

Lemma render_cell_calls (a : OffscreenAddon) (theme : ITheme)
    (themePalette : list (option string)) (fontSize : Z) (fontFamily : string)
    (line : IBufferLine) (y col : Z) (ctx : Context2D) :
  render_cell a theme themePalette fontSize fontFamily line y col ctx =
  match getCell line col with
  | None => ctx
  | Some cell =>
    mkCtx (ctx_canvas ctx)
          (calls ctx ++ cell_calls (_cellWidth a) (_cellHeight a) theme themePalette
                          fontSize fontFamily cell y col)
  end.
Proof.
  unfold render_cell, cell_calls.
  destruct (getCell line col) as [cell|]; [|reflexivity].
  destruct ctx as [id cs]. cbn [ctx_canvas calls].
  destruct (getWidth cell =? 0); [now rewrite app_nil_r|].
  destruct (isInverse cell);
    (match goal with |- context [str_neq ?x ?y] => destruct (str_neq x y) end);
    destruct (String.eqb (getChars cell) "");
    cbn [when app]; rewrite ?app_nil_r; try reflexivity;
    destruct (isBold cell), (isItalic cell), (isDim cell), (isUnderline cell),
             (isStrikethrough cell), (isOverline cell);
    cbn [when app];
    unfold fillRect, fillText, set_font, set_fillStyle, set_globalAlpha, emit;
    cbn [ctx_canvas calls]; rewrite <- ?app_assoc; reflexivity.
Qed.

(** C3. Inverse video swaps the two resolved colours and nothing else: a
    cell with inverse set whose foreground resolves to A and background to B
    makes the very calls on the context that the same cell makes with
    inverse clear, foreground resolving to B and background to A; the
    background rectangle, when one is filled, is filled with A, and the glyph
    is drawn with B. *)
Theorem inverse_is_swap (a : OffscreenAddon) (theme : ITheme)
    (themePalette : list (option string)) (fontSize : Z) (fontFamily : string)
    (line1 line2 : IBufferLine) (y col : Z) (ctx : Context2D)
    (c1 c2 : IBufferCell) (A B : option string) :
  getCell line1 col = Some c1 ->
  getCell line2 col = Some c2 ->
  isInverse c1 = true ->
  isInverse c2 = false ->
  same_glyph c1 c2 ->
  _getColor c1 true theme themePalette = A ->
  _getColor c1 false theme themePalette = B ->
  _getColor c2 true theme themePalette = B ->
  _getColor c2 false theme themePalette = A ->
  render_cell a theme themePalette fontSize fontFamily line1 y col ctx
  = render_cell a theme themePalette fontSize fontFamily line2 y col ctx
  /\ (getWidth c1 <> 0 ->
      exists glyph,
        calls (render_cell a theme themePalette fontSize fontFamily line1 y col ctx)
        = (calls ctx
           ++ when (str_neq A (background theme ?? Some "#000000"))
                [SetFillStyle A;
                 FillRect (zq (col * _cellWidth a)) (zq y)
                          (zq (_cellWidth a * getWidth c1)) (zq (_cellHeight a))]
           ++ glyph)%list
        /\ (getChars c1 = "" -> glyph = [])
        /\ (getChars c1 <> "" ->
            exists font alpha rest,
              glyph = (SetFont font :: SetFillStyle B :: alpha
                       ++ FillText (getChars c1) (zq (col * _cellWidth a))
                            (zq y + zq (_cellHeight a - fontSize) / 2)%Q :: rest)%list
              /\ (alpha = [] \/ alpha = [SetGlobalAlpha (1 # 2)]))).
Proof.
  intros H1 H2 Hi1 Hi2 Hsame HA HB HB2 HA2.
  destruct Hsame as (Hw & Hc & Hbold & Hit & Hdim & Hul & Hst & Hol).
  rewrite !render_cell_calls, H1, H2. split.
  - f_equal. f_equal. unfold cell_calls.
    rewrite Hi1, Hi2, HA, HB, HA2, HB2, Hw, Hc, Hbold, Hit, Hdim, Hul, Hst, Hol.
    reflexivity.
  - intros Hnz. cbn [calls]. unfold cell_calls.
    rewrite Hi1, HA, HB.
    replace (getWidth c1 =? 0) with false by (symmetry; apply Z.eqb_neq; exact Hnz).
    eexists. split; [reflexivity|]. split.
    + intros ->. reflexivity.
    + intros Hne. apply String.eqb_neq in Hne. rewrite Hne.
      destruct (isDim c1).
      * do 3 eexists. split; [|right; reflexivity]. reflexivity.
      * do 3 eexists. split; [|left; reflexivity]. reflexivity.
Qed.

Lemma inverse_is_swap_witness :
  let a := with_metrics 8 13 (new_OffscreenAddon None) in
  let inverse := mkLine (fun _ => Some (plain_cell "A" 1 (Palette 1) (Palette 4) true)) in
  let swapped := mkLine (fun _ => Some (plain_cell "A" 1 (Palette 4) (Palette 1) false)) in
  let tp := _buildThemePalette empty_theme in
  render_cell a empty_theme tp 13 "monospace" inverse 0 2 (mkCtx 0 [])
  = render_cell a empty_theme tp 13 "monospace" swapped 0 2 (mkCtx 0 []).
Proof.
  cbv zeta.
  refine (proj1 (inverse_is_swap (with_metrics 8 13 (new_OffscreenAddon None)) empty_theme
                   (_buildThemePalette empty_theme) 13 "monospace"
                   (mkLine (fun _ => Some (plain_cell "A" 1 (Palette 1) (Palette 4) true)))
                   (mkLine (fun _ => Some (plain_cell "A" 1 (Palette 4) (Palette 1) false)))
                   0 2 (mkCtx 0 [])
                   (plain_cell "A" 1 (Palette 1) (Palette 4) true)
                   (plain_cell "A" 1 (Palette 4) (Palette 1) false)
                   (Some "#cd0000") (Some "#0000ee")
                   eq_refl eq_refl eq_refl eq_refl _ eq_refl eq_refl eq_refl eq_refl)).
  unfold same_glyph. repeat split.
Defined.

(** ** Columns of a row *)

Lemma range_shift (s m : nat) :
  map Z.of_nat (seq s m) = map (Z.add (Z.of_nat s)) (map Z.of_nat (seq 0 m)).
Proof.
  revert s. induction m as [|m IH]; intros s; [reflexivity|].
  cbn [seq map]. f_equal; [lia|].
  rewrite IH. rewrite <- (seq_shift m 0). rewrite !map_map.
  apply map_ext. intros i. lia.
Qed.

Lemma range_split (n c : Z) :
  0 <= c -> c + 2 <= n ->
  range n = (range c ++ c :: (c + 1) :: map (Z.add (c + 2)) (range (n - (c + 2))))%list.
Proof.
  intros H0 Hn. unfold range.
  replace (Z.to_nat n) with (Z.to_nat c + S (S (Z.to_nat (n - (c + 2)))))%nat by lia.
  rewrite seq_app, map_app. f_equal.
  cbn [seq map Nat.add]. f_equal; [lia|]. f_equal; [lia|].
  rewrite range_shift. apply map_ext. intros i. lia.
Qed.

Lemma range_split_one (n c : Z) :
  0 <= c -> c + 1 <= n ->
  range n = (range c ++ c :: map (Z.add (c + 1)) (range (n - (c + 1))))%list.
Proof.
  intros H0 Hn. unfold range.
  replace (Z.to_nat n) with (Z.to_nat c + S (Z.to_nat (n - (c + 1))))%nat by lia.
  rewrite seq_app, map_app. f_equal.
  cbn [seq map Nat.add]. f_equal; [lia|].
  rewrite range_shift. apply map_ext. intros i. lia.
Qed.

Lemma fold_appends {I : Type} (g : I -> list CanvasCall)
    (body : I -> Context2D -> Context2D) (l : list I) :
  (forall i ctx, body i ctx = mkCtx (ctx_canvas ctx) (calls ctx ++ g i)) ->
  forall ctx,
    fold_left (fun acc i => body i acc) l ctx
    = mkCtx (ctx_canvas ctx) (calls ctx ++ flat_map g l).
Proof.
  intros Hbody. induction l as [|i l IH]; intros ctx.
  - cbn. rewrite app_nil_r. now destruct ctx.
  - cbn [fold_left flat_map]. rewrite IH, Hbody. cbn [ctx_canvas calls].
    now rewrite app_assoc.
Qed.

Lemma render_row_calls (a : OffscreenAddon) (t : Terminal) (theme : ITheme)
    (themePalette : list (option string)) (fontSize : Z) (fontFamily : string)
    (row : Z) (ctx : Context2D) :
  render_row a t theme themePalette fontSize fontFamily row ctx =
  mkCtx (ctx_canvas ctx)
        (calls ctx ++
         match getLine (buffer_active t) (viewportY (buffer_active t) + row) with
         | None => []
         | Some line =>
           line_calls (_cellWidth a) (_cellHeight a) theme themePalette fontSize
                      fontFamily line (row * _cellHeight a) (cols t)
         end).
Proof.
  unfold render_row.
  destruct (getLine _ _) as [line|].
  - unfold for_range, line_calls.
    apply (fold_appends
             (fun col => match getCell line col with
                         | None => []
                         | Some cell =>
                           cell_calls (_cellWidth a) (_cellHeight a) theme themePalette
                                      fontSize fontFamily cell (row * _cellHeight a) col
                         end)).
    intros col c. rewrite render_cell_calls.
    destruct (getCell line col); [reflexivity|].
    rewrite app_nil_r. now destruct c.
  - rewrite app_nil_r. now destruct ctx.
Qed.

(** C4. A cell of width 0 adds no call to the context: no fill, no glyph,
    no decoration; the calls of its row are those of the columns before it
    followed by those of the columns after it.  When a width-2 cell at
    column c is followed by a width-0 cell at column c + 1, the calls of the
    row are those of the columns before c, then the calls of the wide cell
    once, then those of the columns from c + 2: column c + 1 contributes
    nothing.  The calls of the wide cell hold at most one glyph and four
    rectangles (the background and the three decorations), each starting at
    column c and cellWidth * 2 wide. *)
Theorem wide_cell_drawn_once (a : OffscreenAddon) (t : Terminal) (theme : ITheme)
    (themePalette : list (option string)) (fontSize : Z) (fontFamily : string)
    (row : Z) (line : IBufferLine) :
  getLine (buffer_active t) (viewportY (buffer_active t) + row) = Some line ->
  let y := row * _cellHeight a in
  let body := render_cell a theme themePalette fontSize fontFamily line y in
  let column col := calls (body col (mkCtx 0 [])) in
  (forall c cell ctx,
     0 <= c -> c + 1 <= cols t ->
     getCell line c = Some cell -> getWidth cell = 0 ->
     body c ctx = ctx
     /\ column c = []
     /\ calls (render_row a t theme themePalette fontSize fontFamily row ctx)
        = (calls ctx
           ++ flat_map column (range c)
           ++ flat_map column (map (Z.add (c + 1)) (range (cols t - (c + 1)))))%list)
  /\ (forall c wide cont ctx,
        0 <= c -> c + 2 <= cols t ->
        getCell line c = Some wide -> getWidth wide = 2 ->
        getCell line (c + 1) = Some cont -> getWidth cont = 0 ->
        let drawn :=
          cell_calls (_cellWidth a) (_cellHeight a) theme themePalette
                     fontSize fontFamily wide y c in
        calls (render_row a t theme themePalette fontSize fontFamily row ctx)
        = (calls ctx
           ++ flat_map column (range c)
           ++ drawn
           ++ flat_map column (map (Z.add (c + 2)) (range (cols t - (c + 2)))))%list
        /\ column c = drawn
        /\ column (c + 1) = []
        /\ body (c + 1) (body c ctx) = body c ctx
        /\ calls (body c ctx) = (calls ctx ++ drawn)%list
        /\ Forall (spans (_cellWidth a) c 2) drawn
        /\ (List.length (filter is_fillText drawn) <= 1)%nat
        /\ (List.length (filter is_fillRect drawn) <= 4)%nat).
Proof.
  intros Hline. cbv zeta.
  assert (forall col cell ctx,
            getCell line col = Some cell -> getWidth cell = 0 ->
            render_cell a theme themePalette fontSize fontFamily line
                        (row * _cellHeight a) col ctx = ctx)
    as Hzero.
  { intros col cell ctx Hc Hw. unfold render_cell. rewrite Hc, Hw. reflexivity. }
  assert (forall ctx,
            calls (render_row a t theme themePalette fontSize fontFamily row ctx)
            = (calls ctx
               ++ flat_map
                    (fun col =>
                       calls (render_cell a theme themePalette fontSize fontFamily line
                                (row * _cellHeight a) col (mkCtx 0 [])))
                    (range (cols t)))%list)
    as Hrow.
  { intros ctx. rewrite render_row_calls, Hline. cbn [calls]. f_equal.
    unfold line_calls. apply flat_map_ext. intros col.
    rewrite render_cell_calls. now destruct (getCell line col). }
  split.
  - intros c cell ctx H0 Hn Hcell Hw.
    split; [apply (Hzero _ cell); assumption|].
    split; [rewrite (Hzero c cell (mkCtx 0 []) Hcell Hw); reflexivity|].
    rewrite Hrow, (range_split_one (cols t) c H0 Hn).
    rewrite flat_map_app. cbn [flat_map].
    rewrite (Hzero c cell (mkCtx 0 []) Hcell Hw). reflexivity.
  - intros c wide cont ctx H0 Hn Hwide Hw2 Hcont Hw0.
    assert (calls (render_cell a theme themePalette fontSize fontFamily line
                     (row * _cellHeight a) c (mkCtx 0 []))
            = cell_calls (_cellWidth a) (_cellHeight a) theme themePalette fontSize
                         fontFamily wide (row * _cellHeight a) c) as Hdrawn.
    { rewrite render_cell_calls, Hwide. reflexivity. }
    split.
    { rewrite Hrow, (range_split (cols t) c H0 Hn).
      rewrite flat_map_app. cbn [flat_map].
      rewrite (Hzero (c + 1) cont (mkCtx 0 []) Hcont Hw0). rewrite Hdrawn. reflexivity. }
    split; [exact Hdrawn|].
    split; [rewrite (Hzero (c + 1) cont (mkCtx 0 []) Hcont Hw0); reflexivity|].
    split; [apply (Hzero _ cont); assumption|].
    split; [rewrite render_cell_calls, Hwide; reflexivity|].
    unfold cell_calls. rewrite Hw2. cbn [Z.eqb].
    destruct (isInverse wide);
      (match goal with |- context [str_neq ?x ?y] => destruct (str_neq x y) end);
      destruct (String.eqb (getChars wide) "");
      destruct (isDim wide), (isUnderline wide), (isStrikethrough wide), (isOverline wide);
      cbn [when app filter is_fillText is_fillRect List.length];
      (split; [repeat constructor|split; lia]).
Qed.

Lemma wide_cell_drawn_once_witness :
  let a := with_metrics 8 13 (new_OffscreenAddon None) in
  let tp := _buildThemePalette empty_theme in
  let column col :=
    calls (render_cell a empty_theme tp 13 "monospace" sample_line (0 * 13) col
             (mkCtx 0 [])) in
  calls (render_row a (sample_terminal 0 0) empty_theme tp 13 "monospace" 0 (mkCtx 0 []))
  = ([] ++ flat_map column (range 0)
     ++ cell_calls 8 13 empty_theme tp 13 "monospace"
          (plain_cell "W" 2 (Palette 1) (Palette 4) false) (0 * 13) 0
     ++ flat_map column (map (Z.add 2) (range 2)))%list
  /\ column 1 = [].
Proof.
  cbv zeta.
  destruct (wide_cell_drawn_once (with_metrics 8 13 (new_OffscreenAddon None))
              (sample_terminal 0 0) empty_theme (_buildThemePalette empty_theme)
              13 "monospace" 0 sample_line eq_refl)
    as [Hzero Hwide].
  split.
  - exact (proj1 (Hwide 0 (plain_cell "W" 2 (Palette 1) (Palette 4) false)
                    (plain_cell "" 0 Default Default false) (mkCtx 0 [])
                    ltac:(lia) ltac:(cbn; lia) eq_refl eq_refl eq_refl eq_refl)).
  - exact (proj1 (proj2 (Hzero 1 (plain_cell "" 0 Default Default false) (mkCtx 0 [])
                           ltac:(lia) ltac:(cbn; lia) eq_refl eq_refl))).
Defined.

(** ** Clamping *)

Lemma clamp_above (q : JsNum) :
  num_ltb (Fin 1) q = true -> Math_max (Fin 0) (Math_min (Fin 1) q) = Fin 1.
Proof.
  intros H. destruct q as [| | |x]; try discriminate; cbn in *; rewrite ?H; reflexivity.
Qed.

Lemma clamp_below (q : JsNum) :
  num_ltb q (Fin 0) = true -> Math_max (Fin 0) (Math_min (Fin 1) q) = Fin 0.
Proof.
  intros H. destruct q as [| | |x]; try discriminate; [reflexivity|].
  cbn in H. unfold Math_min. cbn [num_ltb].
  destruct (negb (Qle_bool x 1)) eqn:E.
  - apply negb_true_iff in H, E.
    apply not_true_iff_false in E. exfalso. apply E.
    apply Qle_bool_iff. apply not_true_iff_false in H.
    rewrite Qle_bool_iff in H. apply Qnot_le_lt in H.
    apply Qlt_le_weak. eapply Qlt_trans; [exact H|]. reflexivity.
  - unfold Math_max. cbn [num_ltb]. rewrite H. reflexivity.
Qed.

Lemma clamp_inside (q : JsNum) :
  num_in_unit q = true -> Math_max (Fin 0) (Math_min (Fin 1) q) = q.
Proof.
  unfold num_in_unit. intros H. apply andb_true_iff in H. destruct H as [H0 H1].
  destruct q as [| | |x]; try discriminate. cbn in H0, H1.
  unfold Math_min. cbn [num_ltb]. rewrite H1. cbn [negb].
  unfold Math_max. cbn [num_ltb]. rewrite H0. reflexivity.
Qed.

Lemma clamp_in_unit (q : JsNum) :
  q <> NaN -> num_in_unit (Math_max (Fin 0) (Math_min (Fin 1) q)) = true.
Proof.
  intros Hq. destruct q as [| | |x]; [contradiction|reflexivity|reflexivity|].
  destruct (num_ltb (Fin 1) (Fin x)) eqn:E1.
  - rewrite clamp_above by exact E1. reflexivity.
  - destruct (num_ltb (Fin x) (Fin 0)) eqn:E0.
    + rewrite clamp_below by exact E0. reflexivity.
    + cbn in E0, E1. apply negb_false_iff in E0, E1.
      rewrite clamp_inside; unfold num_in_unit; cbn; now rewrite E0, E1.
Qed.

(** ** The state of the addon across a render *)

Section RenderFacts.

Variable fmul : JsNum -> JsNum -> JsNum.
Variable Math_ceil : JsNum -> Z.
Variable Math_round : JsNum -> Z.

Local Abbreviation measure_cell := (measure_cell fmul Math_ceil).
Local Abbreviation computed_size := (computed_size fmul Math_ceil).
Local Abbreviation _updateDimensions := (_updateDimensions fmul Math_ceil).
Local Abbreviation _render := (_render fmul Math_ceil Math_round).
Local Abbreviation capture := (capture fmul Math_ceil Math_round).
Local Abbreviation getCanvas := (getCanvas fmul Math_ceil Math_round).


Lemma updateDimensions_attached (a : OffscreenAddon) (t : Terminal) :
  _terminal a = Some t ->
  let scale := scaleFactor (_options a) in
  let size := computed_size t scale in
  let a' := with_metrics (fst (measure_cell t scale)) (snd (measure_cell t scale)) a in
  _updateDimensions a =
    if raster_fits a size
    then a'
    else with_canvas (Some (mkCanvas (allocated a) (fst size) (snd size)))
                     (Some (mkCtx (allocated a) [])) (S (allocated a)) a'.
Proof.
  intros Ht. unfold _updateDimensions, raster_fits, computed_size. rewrite Ht.
  cbn [with_metrics _canvas _cellWidth _cellHeight allocated fst snd].
  destruct (_canvas a) as [c|]; [|reflexivity].
  destruct (canvas_width c =? _) eqn:Ew, (canvas_height c =? _) eqn:Eh; reflexivity.
Qed.

Lemma updateDimensions_terminal (a : OffscreenAddon) :
  _terminal (_updateDimensions a) = _terminal a.
Proof.
  destruct (_terminal a) as [t|] eqn:Ht.
  - rewrite (updateDimensions_attached a t Ht). cbv zeta.
    destruct (raster_fits a _); exact Ht.
  - unfold _updateDimensions. rewrite Ht. exact Ht.
Qed.

Lemma updateDimensions_options (a : OffscreenAddon) :
  _options (_updateDimensions a) = _options a.
Proof.
  destruct (_terminal a) as [t|] eqn:Ht.
  - rewrite (updateDimensions_attached a t Ht). cbv zeta.
    destruct (raster_fits a _); reflexivity.
  - unfold _updateDimensions. rewrite Ht. reflexivity.
Qed.

Lemma updateDimensions_canvas (a : OffscreenAddon) (t : Terminal) :
  _terminal a = Some t -> exists c, _canvas (_updateDimensions a) = Some c.
Proof.
  intros Ht. rewrite (updateDimensions_attached a t Ht). cbv zeta.
  destruct (raster_fits a _) eqn:Ef.
  - unfold raster_fits in Ef. cbn. destruct (_canvas a) as [c|]; [now exists c|discriminate].
  - eexists. reflexivity.
Qed.

(** Rendering touches the context only: the canvas, the options, the metrics
    and the terminal are those [_updateDimensions] leaves. *)
Lemma render_frame (a : OffscreenAddon) :
  exists x, _render a = with_ctx x (_updateDimensions a).
Proof.
  unfold _render. destruct (_terminal a) as [t|] eqn:Ht.
  - destruct (_canvas (_updateDimensions a)) as [c|].
    + destruct (_ctx (_updateDimensions a)) as [x|] eqn:Ex.
      * eexists. reflexivity.
      * exists None. destruct (_updateDimensions a). cbn in *. now subst.
    + exists (_ctx (_updateDimensions a)). now destruct (_updateDimensions a).
  - exists (_ctx a). unfold _updateDimensions. rewrite Ht. now destruct a.
Qed.

Lemma render_canvas (a : OffscreenAddon) :
  _canvas (_render a) = _canvas (_updateDimensions a).
Proof. destruct (render_frame a) as [x ->]. reflexivity. Qed.

Lemma render_allocated (a : OffscreenAddon) :
  allocated (_render a) = allocated (_updateDimensions a).
Proof. destruct (render_frame a) as [x ->]. reflexivity. Qed.

Lemma render_terminal (a : OffscreenAddon) :
  _terminal (_render a) = _terminal a.
Proof.
  destruct (render_frame a) as [x ->]. cbn. apply updateDimensions_terminal.
Qed.

Lemma render_options (a : OffscreenAddon) :
  _options (_render a) = _options a.
Proof.
  destruct (render_frame a) as [x ->]. cbn. apply updateDimensions_options.
Qed.

Lemma render_canvas_attached (a : OffscreenAddon) (t : Terminal) :
  _terminal a = Some t -> exists c, _canvas (_render a) = Some c.
Proof.
  intros Ht. rewrite render_canvas. eapply updateDimensions_canvas, Ht.
Qed.

(** ** Reallocation *)

Lemma render_fits (a : OffscreenAddon) (t : Terminal) :
  _terminal a = Some t ->
  raster_fits (_render a) (computed_size t (scaleFactor (_options a))) = true.
Proof.
  intros Ht. unfold raster_fits at 1. rewrite render_canvas.
  rewrite (updateDimensions_attached a t Ht). cbv zeta.
  destruct (raster_fits a _) eqn:Ef.
  - exact Ef.
  - cbn. now rewrite !Z.eqb_refl.
Qed.

Lemma render_decision (a : OffscreenAddon) (t : Terminal) :
  _terminal a = Some t ->
  let size := computed_size t (scaleFactor (_options a)) in
  _canvas (_render a) =
    (if raster_fits a size then _canvas a
     else Some (mkCanvas (allocated a) (fst size) (snd size)))
  /\ allocated (_render a) =
       (if raster_fits a size then allocated a else S (allocated a)).
Proof.
  intros Ht. cbv zeta. rewrite render_canvas, render_allocated.
  rewrite (updateDimensions_attached a t Ht). cbv zeta.
  destruct (raster_fits a _); split; reflexivity.
Qed.

(** Canvas identities are handed out in order: true of a new addon, and
    kept by every method. *)
Lemma ids_fresh_kept (a : OffscreenAddon) :
  (forall o, ids_fresh (new_OffscreenAddon o))
  /\ (ids_fresh a ->
      ids_fresh (_render a)
      /\ (forall t, ids_fresh (activate fmul Math_ceil t a))
      /\ (forall o, ids_fresh (setOptions o a))
      /\ ids_fresh (dispose a)
      /\ (forall t, ids_fresh (terminal_changed t a))).
Proof.
  split; [intros o c H; discriminate H|].
  intros Hfresh.
  assert (forall b t, _terminal b = Some t -> ids_fresh b ->
                      ids_fresh (_updateDimensions b)) as Hupd.
  { intros b t Hb Hf c. rewrite (updateDimensions_attached b t Hb). cbv zeta.
    destruct (raster_fits b _).
    - cbn [with_metrics _canvas allocated]. apply Hf.
    - cbn [with_canvas _canvas allocated]. intros [= <-]. cbn. lia. }
  split; [|split; [|split; [|split]]].
  - destruct (_terminal a) as [t|] eqn:Ht.
    + intros c. rewrite render_canvas, render_allocated. now apply (Hupd a t).
    + unfold _render. rewrite Ht. exact Hfresh.
  - intros t. unfold activate. apply (Hupd _ t); [reflexivity|exact Hfresh].
  - intros o c H. discriminate H.
  - intros c H. discriminate H.
  - intros t. unfold terminal_changed. destruct (_terminal a); exact Hfresh.
Qed.

(** C5. With a terminal attached, a render allocates a new raster exactly
    when there is none or its width or height differs from the computed
    cols * cellWidth, rows * cellHeight, and the new raster has that size; a
    second render with the same grid size, scale factor and cell metrics
    keeps the raster of the first; setOptions drops the raster, so that the
    next render allocates one of the size computed under the new options.
    A newly allocated raster is a new object, never the current one. *)
Theorem raster_reallocation (a : OffscreenAddon) (t : Terminal) :
  _terminal a = Some t ->
  let scale := scaleFactor (_options a) in
  let size := computed_size t scale in
  (raster_fits a size = true ->
     _canvas (_render a) = _canvas a /\ allocated (_render a) = allocated a)
  /\ (raster_fits a size = false ->
        _canvas (_render a) = Some (mkCanvas (allocated a) (fst size) (snd size))
        /\ allocated (_render a) = S (allocated a))
  /\ (forall t',
        cols t' = cols t -> rows t' = rows t ->
        measure_cell t' scale = measure_cell t scale ->
        let first := _render a in
        let second := _render (terminal_changed t' first) in
        _canvas second = _canvas first /\ allocated second = allocated first)
  /\ (forall o,
        let a' := setOptions o a in
        let size' := computed_size t (scaleFactor (_options a')) in
        _canvas a' = None
        /\ (forall v, opt_scaleFactor o = Some v ->
              scaleFactor (_options a') = _validateScaleFactor v)
        /\ _canvas (_render a') = Some (mkCanvas (allocated a) (fst size') (snd size'))
        /\ allocated (_render a') = S (allocated a))
  /\ (ids_fresh a -> forall old, _canvas a = Some old -> canvas_id old <> allocated a).
Proof.
  intros Ht. cbv zeta.
  split; [|split; [|split; [|split]]];
    [| | | |intros Hfresh old Hold; specialize (Hfresh old Hold); lia].
  - intros Ef. destruct (render_decision a t Ht) as [Hc Hn].
    rewrite Ef in Hc, Hn. now split.
  - intros Ef. destruct (render_decision a t Ht) as [Hc Hn].
    rewrite Ef in Hc, Hn. now split.
  - intros t' Hcols Hrows Hm.
    pose proof (render_terminal a) as Ht1. rewrite Ht in Ht1.
    assert (_terminal (terminal_changed t' (_render a)) = Some t') as Ht2.
    { unfold terminal_changed. rewrite Ht1. reflexivity. }
    destruct (render_decision _ t' Ht2) as [Hc Hn].
    assert (raster_fits (terminal_changed t' (_render a))
              (computed_size t' (scaleFactor (_options (terminal_changed t' (_render a)))))
            = true) as Ef.
    { unfold terminal_changed. rewrite Ht1.
      cbn [with_terminal _options]. rewrite render_options.
      unfold computed_size. rewrite Hcols, Hrows, Hm.
      exact (render_fits a t Ht). }
    rewrite Ef in Hc, Hn. rewrite Hc, Hn.
    unfold terminal_changed. rewrite Ht1. split; reflexivity.
  - intros o.
    assert (_terminal (setOptions o a) = Some t) as Ht'.
    { unfold setOptions. destruct (opt_scaleFactor o), (opt_showCursor o); exact Ht. }
    assert (_canvas (setOptions o a) = None) as Hnone by reflexivity.
    assert (allocated (setOptions o a) = allocated a) as Hal.
    { unfold setOptions. destruct (opt_scaleFactor o), (opt_showCursor o); reflexivity. }
    split; [exact Hnone|]. split.
    + intros v Hv. unfold setOptions. rewrite Hv.
      destruct (opt_showCursor o); reflexivity.
    + destruct (render_decision _ t Ht') as [Hc Hn].
      unfold raster_fits in Hc, Hn. rewrite Hnone in Hc, Hn.
      rewrite Hal in Hc, Hn. now split.
Qed.

(** ** The cursor *)

Lemma render_cursor_calls (a : OffscreenAddon) (t : Terminal) (ctx : Context2D) :
  render_cursor a t (nullish_or (theme (options t)) empty_theme) ctx =
  mkCtx (ctx_canvas ctx)
        (calls ctx ++ when (showCursor (_options a) && cursor_in_viewport t)
                        (cursor_highlight (_cellWidth a) (_cellHeight a) t)).
Proof.
  unfold render_cursor, cursor_in_viewport, cursor_highlight.
  destruct ctx as [id cs]. cbn [ctx_canvas calls].
  destruct (showCursor (_options a)); cbn [andb when]; [|now rewrite app_nil_r].
  destruct (0 <=? cursorX (buffer_active t)), (cursorX (buffer_active t) <? cols t),
           (0 <=? cursorY (buffer_active t)), (cursorY (buffer_active t) <? rows t);
    cbn [andb when]; rewrite ?app_nil_r; try reflexivity.
  unfold fillRect, set_fillStyle, set_globalAlpha, emit. cbn [ctx_canvas calls].
  rewrite <- !app_assoc. cbn [app].
  destruct (cursor (nullish_or (theme (options t)) empty_theme)); reflexivity.
Qed.

Lemma updateDimensions_hidden (a : OffscreenAddon) :
  _updateDimensions (cursor_hidden a) = cursor_hidden (_updateDimensions a).
Proof.
  unfold _updateDimensions, cursor_hidden.
  cbn [with_options _terminal _options scaleFactor with_metrics _canvas
       _cellWidth _cellHeight].
  destruct (_terminal a) as [t|]; [|reflexivity].
  destruct (_canvas a) as [c|]; [|reflexivity].
  match goal with |- context [if ?b then _ else _] => destruct b end; reflexivity.
Qed.

Lemma updateDimensions_moved (a : OffscreenAddon) (t : Terminal) (cx cy : Z) :
  _terminal a = Some t ->
  _updateDimensions (terminal_changed (move_cursor cx cy t) a)
  = with_terminal (Some (move_cursor cx cy t)) (_updateDimensions a).
Proof.
  intros Ht. unfold terminal_changed, _updateDimensions. rewrite Ht.
  cbn [with_terminal _terminal _options with_metrics _canvas _cellWidth _cellHeight].
  change (measure_cell (move_cursor cx cy t)) with (measure_cell t).
  cbn [move_cursor cols rows].
  destruct (_canvas a) as [c|]; [|reflexivity].
  match goal with |- context [if ?b then _ else _] => destruct b end; reflexivity.
Qed.

Lemma updateDimensions_ctx (a : OffscreenAddon) (t : Terminal) :
  _terminal a = Some t -> has_context a ->
  exists x, _ctx (_updateDimensions a) = Some x.
Proof.
  intros Ht Hctx. rewrite (updateDimensions_attached a t Ht). cbv zeta.
  destruct (raster_fits a _) eqn:Ef.
  - cbn [with_metrics _ctx]. unfold raster_fits in Ef. unfold has_context in Hctx.
    destruct (_canvas a) as [c|]; [|discriminate].
    destruct (_ctx a) as [x|]; [now exists x|].
    exfalso. now apply Hctx.
  - eexists. reflexivity.
Qed.

Lemma render_ctx (a : OffscreenAddon) (t : Terminal) (c : OffscreenCanvas) (x : Context2D) :
  _terminal a = Some t ->
  _canvas (_updateDimensions a) = Some c ->
  _ctx (_updateDimensions a) = Some x ->
  let a' := _updateDimensions a in
  let th := nullish_or (theme (options t)) empty_theme in
  _render a
  = with_ctx (Some (render_cursor a' t th
                      (render_content fmul Math_round a' t c th x))) a'.
Proof.
  intros Ht Hc Hx. unfold _render. rewrite Ht. cbv zeta. rewrite Hc, Hx. reflexivity.
Qed.

(** The invariant holds of a new addon and every method keeps it. *)
Lemma has_context_kept (a : OffscreenAddon) :
  (forall o, has_context (new_OffscreenAddon o))
  /\ (has_context a ->
      has_context (_render a)
      /\ (forall t, has_context (activate fmul Math_ceil t a))
      /\ (forall o, has_context (setOptions o a))
      /\ has_context (dispose a)
      /\ (forall t, has_context (terminal_changed t a))).
Proof.
  split; [intros o H; now contradiction H|].
  intros Hctx. split; [|split; [|split; [|split]]].
  - destruct (_terminal a) as [t|] eqn:Ht.
    + destruct (updateDimensions_canvas a t Ht) as [c Hc].
      destruct (updateDimensions_ctx a t Ht Hctx) as [x Hx].
      rewrite (render_ctx a t c x Ht Hc Hx). intros _. discriminate.
    + unfold _render. rewrite Ht. exact Hctx.
  - intros t. unfold activate.
    destruct (updateDimensions_ctx (with_terminal (Some t) a) t eq_refl Hctx) as [x Hx].
    intros _. rewrite Hx. discriminate.
  - intros o H. now contradiction H.
  - intros H. now contradiction H.
  - intros t. unfold terminal_changed. destruct (_terminal a); exact Hctx.
Qed.

(** C6. The cursor highlight is the last thing a render paints, and it is
    painted exactly when showCursor is set and the cursor's column and row
    lie in [0, cols) and [0, rows): the calls of a render are those of the
    same render with the cursor switched off, followed in that case by a
    rectangle of one cell's width and height at the cursor's cell, filled at
    50% alpha with the theme's cursor colour ('#ffffff' by default).  With
    the cursor switched off, the calls do not depend on where the cursor
    is. *)
Theorem cursor_highlight_painted (a : OffscreenAddon) (t : Terminal) :
  _terminal a = Some t ->
  has_context a ->
  exists content ctx,
    _ctx (_render (cursor_hidden a)) = Some content
    /\ _ctx (_render a) = Some ctx
    /\ calls ctx
       = (calls content
          ++ when (showCursor (_options a) && cursor_in_viewport t)
               (cursor_highlight (_cellWidth (_render a)) (_cellHeight (_render a)) t))%list
    /\ (forall cx cy,
          exists moved,
            _ctx (_render (cursor_hidden (terminal_changed (move_cursor cx cy t) a)))
            = Some moved
            /\ calls moved = calls content).
Proof.
  intros Ht Hctx.
  destruct (updateDimensions_canvas a t Ht) as [c Hc].
  destruct (updateDimensions_ctx a t Ht Hctx) as [x Hx].
  assert (forall b t',
            _terminal b = Some t' ->
            _canvas (_updateDimensions b) = Some c ->
            _ctx (_updateDimensions b) = Some x ->
            showCursor (_options b) = false ->
            _ctx (_render b)
            = Some (render_content fmul Math_round (_updateDimensions b) t' c
                      (nullish_or (theme (options t')) empty_theme) x)) as Hhidden.
  { intros b t' Hb Hbc Hbx Hoff.
    rewrite (render_ctx b t' c x Hb Hbc Hbx). cbv zeta. cbn [with_ctx _ctx].
    rewrite render_cursor_calls, updateDimensions_options, Hoff.
    cbn [andb when]. rewrite app_nil_r.
    now destruct (render_content _ _ _ _ _ _ _). }
  exists (render_content fmul Math_round (_updateDimensions a) t c
            (nullish_or (theme (options t)) empty_theme) x).
  eexists. split; [|split; [|split]].
  - rewrite (Hhidden (cursor_hidden a) t); try reflexivity.
    + rewrite updateDimensions_hidden. reflexivity.
    + exact Ht.
    + rewrite updateDimensions_hidden. exact Hc.
    + rewrite updateDimensions_hidden. exact Hx.
  - rewrite (render_ctx a t c x Ht Hc Hx). cbv zeta. cbn [with_ctx _ctx].
    rewrite render_cursor_calls. reflexivity.
  - cbn [calls]. rewrite updateDimensions_options.
    rewrite (render_ctx a t c x Ht Hc Hx). reflexivity.
  - intros cx cy.
    assert (_updateDimensions (cursor_hidden (terminal_changed (move_cursor cx cy t) a))
            = cursor_hidden (with_terminal (Some (move_cursor cx cy t))
                               (_updateDimensions a))) as Hupd.
    { rewrite updateDimensions_hidden, (updateDimensions_moved a t cx cy Ht).
      reflexivity. }
    eexists. split.
    + apply Hhidden.
      * unfold terminal_changed. rewrite Ht. reflexivity.
      * rewrite Hupd. exact Hc.
      * rewrite Hupd. exact Hx.
      * reflexivity.
    + rewrite Hupd. reflexivity.
Qed.


(** ** Capture *)

Lemma capture_attached (options : option ICaptureOptions) (a : OffscreenAddon) (t : Terminal) :
  _terminal a = Some t ->
  exists canvas,
    _canvas (_render a) = Some canvas /\
    capture options a =
      let format :=
        nullish_or (match options with Some o => format o | None => None end) "imageBitmap" in
      let type :=
        nullish_or (match options with Some o => type o | None => None end) "image/png" in
      let quality :=
        Math_max (Fin 0)
          (Math_min (Fin 1)
             (nullish_or (match options with Some o => quality o | None => None end)
                         (Fin (23 # 25)))) in
      (_render a,
       if String.eqb format "imageBitmap" then inr (CreateImageBitmap canvas)
       else if String.eqb format "dataURL" then inr (ReadAsDataURL canvas type quality)
       else if String.eqb format "blob" then inr (ConvertToBlob canvas type quality)
       else inl (UnknownFormat format)).
Proof.
  intros Ht. destruct (render_canvas_attached a t Ht) as [c Hc].
  exists c. split; [exact Hc|].
  unfold capture. rewrite Ht, Hc. cbv zeta.
  repeat match goal with |- context [if ?b then _ else _] => destruct b end; reflexivity.
Qed.

(** C7. A format outside imageBitmap, dataURL, blob makes capture fail: with
    the unknown-format error once the addon is attached (detached, the
    precondition error comes first), never with an export in a substituted
    format; a format of the set never raises that error, and exports once
    the addon is attached. *)
Theorem capture_format_checked (o : ICaptureOptions) (a : OffscreenAddon) (f : string) :
  format o = Some f ->
  (~ supported_format f ->
     (exists e, snd (capture (Some o) a) = inl e)
     /\ (forall t, _terminal a = Some t ->
           snd (capture (Some o) a) = inl (UnknownFormat f)))
  /\ (supported_format f ->
        (forall g, snd (capture (Some o) a) <> inl (UnknownFormat g))
        /\ (forall t, _terminal a = Some t ->
              exists e, snd (capture (Some o) a) = inr e)).
Proof.
  intros Hf. unfold supported_format. split.
  - intros Hbad.
    assert (String.eqb f "imageBitmap" = false) as E1 by (apply String.eqb_neq; tauto).
    assert (String.eqb f "dataURL" = false) as E2 by (apply String.eqb_neq; tauto).
    assert (String.eqb f "blob" = false) as E3 by (apply String.eqb_neq; tauto).
    assert (forall t, _terminal a = Some t ->
              snd (capture (Some o) a) = inl (UnknownFormat f)) as Hatt.
    { intros t Ht. destruct (capture_attached (Some o) a t Ht) as (c & _ & ->).
      rewrite Hf. cbn [nullish_or snd]. rewrite E1, E2, E3. reflexivity. }
    split; [|exact Hatt].
    destruct (_terminal a) as [t|] eqn:Ht.
    + eexists. apply (Hatt t eq_refl).
    + unfold capture. rewrite Ht. eexists. reflexivity.
  - intros Hgood. split.
    + intros g. destruct (_terminal a) as [t|] eqn:Ht.
      * destruct (capture_attached (Some o) a t Ht) as (c & _ & ->).
        rewrite Hf. cbn [nullish_or snd].
        destruct Hgood as [-> | [-> | ->]]; discriminate.
      * unfold capture. rewrite Ht. discriminate.
    + intros t Ht. destruct (capture_attached (Some o) a t Ht) as (c & _ & ->).
      rewrite Hf. cbn [nullish_or snd].
      destruct Hgood as [-> | [-> | ->]]; eexists; reflexivity.
Qed.

(** C8. Detached (never activated, or disposed), capture and getCanvas fail
    at once with the not-activated error, leaving the addon as it was:
    nothing is rendered, allocated or retried.  Attached, neither raises that
    error. *)
Theorem precondition_failure (options : option ICaptureOptions) (a : OffscreenAddon) :
  (_terminal a = None ->
     capture options a = (a, inl AddonNotActivated)
     /\ getCanvas a = (a, inl AddonNotActivated))
  /\ (forall o, _terminal (new_OffscreenAddon o) = None)
  /\ _terminal (dispose a) = None
  /\ (forall t, _terminal a = Some t ->
        snd (capture options a) <> inl AddonNotActivated
        /\ snd (getCanvas a) <> inl AddonNotActivated).
Proof.
  split; [|split; [|split]].
  - intros Ht. unfold capture, getCanvas. rewrite Ht. split; reflexivity.
  - reflexivity.
  - reflexivity.
  - intros t Ht. split.
    + destruct (capture_attached options a t Ht) as (c & _ & ->). cbn [snd].
      repeat match goal with |- context [if ?b then _ else _] => destruct b end;
        discriminate.
    + destruct (render_canvas_attached a t Ht) as [c Hc].
      unfold getCanvas. rewrite Ht, Hc. discriminate.
Qed.

(** C9. The quality of a capture is clamped into [0, 1], never rejected: a
    quality above 1 (5, say) behaves as 1, one below 0 (-5, say) as 0, an
    omitted one as 0.92, and one inside [0, 1] reaches the encoder as it
    is.  The quality is any number but NaN. *)
Theorem capture_quality_clamped (f ty : option string) (a : OffscreenAddon) :
  let cap q := capture (Some (mkCaptureOptions f ty q)) a in
  (forall q t, q <> NaN -> _terminal a = Some t ->
     f = Some "blob" \/ f = Some "dataURL" ->
     exists r, exported_quality (snd (cap (Some q))) = Some r
               /\ num_in_unit r = true
               /\ (num_in_unit q = true -> r = q))
  /\ (forall q, num_ltb (Fin 1) q = true -> cap (Some q) = cap (Some (Fin 1)))
  /\ (forall q, num_ltb q (Fin 0) = true -> cap (Some q) = cap (Some (Fin 0)))
  /\ cap (Some (Fin 5)) = cap (Some (Fin 1))
  /\ cap (Some (Fin (-5))) = cap (Some (Fin 0))
  /\ cap None = cap (Some (Fin (23 # 25)))
  /\ capture None a = capture (Some (mkCaptureOptions None None (Some (Fin (23 # 25))))) a.
Proof.
  cbv zeta.
  assert (forall q q',
            Math_max (Fin 0) (Math_min (Fin 1) q) = Math_max (Fin 0) (Math_min (Fin 1) q') ->
            capture (Some (mkCaptureOptions f ty (Some q))) a
            = capture (Some (mkCaptureOptions f ty (Some q'))) a) as Hsame.
  { intros q q' Hq. unfold capture. cbn [format type quality nullish_or].
    rewrite Hq. reflexivity. }
  split; [|split; [|split; [|split; [|split; [|split]]]]].
  - intros q t Hq Ht Hf.
    destruct (capture_attached (Some (mkCaptureOptions f ty (Some q))) a t Ht)
      as (c & _ & ->).
    cbn [format type quality nullish_or snd].
    exists (Math_max (Fin 0) (Math_min (Fin 1) q)).
    split; [destruct Hf as [-> | ->]; reflexivity|].
    split; [apply clamp_in_unit, Hq|apply clamp_inside].
  - intros q Hq. apply Hsame. rewrite clamp_above by exact Hq. reflexivity.
  - intros q Hq. apply Hsame. rewrite clamp_below by exact Hq. reflexivity.
  - apply Hsame. reflexivity.
  - apply Hsame. reflexivity.
  - reflexivity.
  - reflexivity.
Qed.

End RenderFacts.

Lemma capture_format_checked_witness :
  snd (capture exact_mul exact_ceil exact_round
         (Some (mkCaptureOptions (Some "jpeg") None None)) (sample_addon 0 0))
  = inl (UnknownFormat "jpeg")
  /\ exists e,
       snd (capture exact_mul exact_ceil exact_round
              (Some (mkCaptureOptions (Some "blob") None None)) (sample_addon 0 0))
       = inr e.
Proof.
  split.
  - destruct (capture_format_checked exact_mul exact_ceil exact_round
                (mkCaptureOptions (Some "jpeg") None None) (sample_addon 0 0) "jpeg" eq_refl)
      as [Hbad _].
    refine (proj2 (Hbad _) (sample_terminal 0 0) eq_refl).
    unfold supported_format. intros [H | [H | H]]; discriminate H.
  - destruct (capture_format_checked exact_mul exact_ceil exact_round
                (mkCaptureOptions (Some "blob") None None) (sample_addon 0 0) "blob" eq_refl)
      as [_ Hgood].
    refine (proj2 (Hgood _) (sample_terminal 0 0) eq_refl).
    unfold supported_format. right. right. reflexivity.
Defined.

Lemma precondition_failure_witness :
  capture exact_mul exact_ceil exact_round None (new_OffscreenAddon None)
  = (new_OffscreenAddon None, inl AddonNotActivated)
  /\ getCanvas exact_mul exact_ceil exact_round (dispose (sample_addon 0 0))
     = (dispose (sample_addon 0 0), inl AddonNotActivated)
  /\ snd (getCanvas exact_mul exact_ceil exact_round (sample_addon 0 0))
     <> inl AddonNotActivated.
Proof.
  split; [|split].
  - apply (precondition_failure exact_mul exact_ceil exact_round None
             (new_OffscreenAddon None)). reflexivity.
  - apply (precondition_failure exact_mul exact_ceil exact_round None
             (dispose (sample_addon 0 0))). reflexivity.
  - destruct (precondition_failure exact_mul exact_ceil exact_round None (sample_addon 0 0))
      as (_ & _ & _ & H).
    apply (H (sample_terminal 0 0)). reflexivity.
Defined.

Lemma capture_quality_clamped_witness :
  exists r,
    exported_quality
      (snd (capture exact_mul exact_ceil exact_round
              (Some (mkCaptureOptions (Some "blob") None (Some (Fin (1 # 4)))))
              (sample_addon 0 0))) = Some r
    /\ num_in_unit r = true
    /\ r = Fin (1 # 4).
Proof.
  destruct (capture_quality_clamped exact_mul exact_ceil exact_round
              (Some "blob") None (sample_addon 0 0)) as (H & _).
  destruct (H (Fin (1 # 4)) (sample_terminal 0 0)) as (r & Hr & Hu & Hin).
  - discriminate.
  - reflexivity.
  - left. reflexivity.
  - exists r. split; [exact Hr|]. split; [exact Hu|]. apply Hin. reflexivity.
Defined.

Lemma raster_reallocation_witness :
  let a := sample_addon 0 0 in
  let first := _render exact_mul exact_ceil exact_round a in
  let second :=
    _render exact_mul exact_ceil exact_round (terminal_changed (sample_terminal 3 1) first) in
  let scaled := setOptions (mkAddonOptions (Some (Fin 2)) None) first in
  (_canvas second = _canvas first /\ allocated second = allocated first)
  /\ _canvas (_render exact_mul exact_ceil exact_round scaled)
     = Some (mkCanvas 1 64 52).
Proof.
  cbv zeta. split.
  - destruct (raster_reallocation exact_mul exact_ceil exact_round
                (sample_addon 0 0) (sample_terminal 0 0) eq_refl) as (_ & _ & H & _ & _).
    apply (H (sample_terminal 3 1)); reflexivity.
  - destruct (raster_reallocation exact_mul exact_ceil exact_round
                (_render exact_mul exact_ceil exact_round (sample_addon 0 0))
                (sample_terminal 0 0) eq_refl) as (_ & _ & _ & H & _).
    destruct (H (mkAddonOptions (Some (Fin 2)) None)) as (_ & _ & Hc & _).
    exact Hc.
Defined.

Lemma cursor_highlight_painted_witness :
  exists content ctx,
    _ctx (_render exact_mul exact_ceil exact_round (cursor_hidden (sample_addon 1 1)))
    = Some content
    /\ _ctx (_render exact_mul exact_ceil exact_round (sample_addon 1 1)) = Some ctx
    /\ calls ctx
       = (calls content
          ++ [SetFillStyle (Some "#ffffff"); SetGlobalAlpha (1 # 2);
              FillRect 8 13 8 13; SetGlobalAlpha 1])%list.
Proof.
  destruct (cursor_highlight_painted exact_mul exact_ceil exact_round
              (sample_addon 1 1) (sample_terminal 1 1) eq_refl)
    as (content & ctx & Hcontent & Hctx & Hcalls & _).
  - intros _. discriminate.
  - exists content, ctx. split; [exact Hcontent|]. split; [exact Hctx|]. exact Hcalls.
Defined.

(** ** Frames as lists of calls *)

Lemma final_alpha_app (l1 l2 : list CanvasCall) (v : Q) :
  final_alpha (l1 ++ l2) v = final_alpha l2 (final_alpha l1 v).
Proof. unfold final_alpha. apply fold_left_app. Qed.

Lemma final_alpha_flat_map {I : Type} (g : I -> list CanvasCall) (l : list I) (v : Q) :
  (forall i, final_alpha (g i) v = v) -> final_alpha (flat_map g l) v = v.
Proof.
  intros Hg. induction l as [|i l IH]; [reflexivity|].
  cbn [flat_map]. now rewrite final_alpha_app, Hg.
Qed.

Lemma range_bounds (n i : Z) : In i (range n) -> 0 <= i < n.
Proof.
  unfold range. intros H. apply in_map_iff in H. destruct H as (k & <- & Hk).
  apply in_seq in Hk. lia.
Qed.

Lemma flat_map_agree {I B : Type} (f g : I -> list B) (l : list I) :
  (forall i, In i l -> f i = g i) -> flat_map f l = flat_map g l.
Proof.
  intros H. induction l as [|i l IH]; [reflexivity|].
  cbn [flat_map]. rewrite (H i) by (left; reflexivity).
  rewrite IH; [reflexivity|]. intros j Hj. apply H. now right.
Qed.

Lemma Forall_flat_map_in {I B : Type} (P : B -> Prop) (g : I -> list B) (l : list I) :
  (forall i, In i l -> Forall P (g i)) -> Forall P (flat_map g l).
Proof.
  intros H. induction l as [|i l IH]; [constructor|].
  cbn [flat_map]. apply Forall_app. split.
  - apply H. now left.
  - apply IH. intros j Hj. apply H. now right.
Qed.

(** ** Scale factor and colours, further *)

Lemma validateScaleFactor_valid (v : JsNum) :
  scale_valid (_validateScaleFactor v) = true.
Proof.
  unfold scale_valid, _validateScaleFactor.
  destruct v as [| | |x]; cbn; try reflexivity.
  destruct (Qle_bool x 0) eqn:E; cbn; rewrite ?E; reflexivity.
Qed.

(** X1. [_validateScaleFactor] always returns a finite positive number: a
    finite positive argument is returned as it is, anything else (NaN, an
    infinity, zero, a negative number) is replaced by 1. *)
Theorem validateScaleFactor_range (v : JsNum) :
  scale_valid (_validateScaleFactor v) = true
  /\ (scale_valid v = true -> _validateScaleFactor v = v)
  /\ (scale_valid v = false -> _validateScaleFactor v = Fin 1).
Proof.
  unfold scale_valid, _validateScaleFactor.
  destruct v as [| | |x]; cbn; try (repeat split; congruence).
  destruct (Qle_bool x 0) eqn:E; cbn; rewrite ?E; repeat split; congruence.
Qed.

Lemma validateScaleFactor_range_witness :
  _validateScaleFactor (Fin (1 # 2)) = Fin (1 # 2)
  /\ _validateScaleFactor (Fin (-2)) = Fin 1
  /\ _validateScaleFactor PosInf = Fin 1.
Proof.
  split; [|split].
  - apply (validateScaleFactor_range (Fin (1 # 2))). reflexivity.
  - apply (validateScaleFactor_range (Fin (-2))). reflexivity.
  - apply (validateScaleFactor_range PosInf). reflexivity.
Defined.

(** X2. With the theme band built from the same theme, [_getColor] returns a
    colour, never undefined, as soon as the colour number is not negative;
    a palette descriptor with a negative index is the one case that
    resolves to undefined. *)
Theorem getColor_defined (cell : IBufferCell) (isForeground : bool) (theme : ITheme) :
  (0 <= color_number cell isForeground ->
     exists s, _getColor cell isForeground theme (_buildThemePalette theme) = Some s)
  /\ (mode_default cell isForeground = false ->
      mode_rgb cell isForeground = false ->
      mode_palette cell isForeground = true ->
      color_number cell isForeground < 0 ->
        _getColor cell isForeground theme (_buildThemePalette theme) = None).
Proof.
  unfold mode_default, mode_rgb, mode_palette, color_number, _getColor.
  split.
  - intros Hpos.
    assert (exists s, (if isForeground
                       then foreground theme ?? Some "#ffffff"
                       else background theme ?? Some "#000000") = Some s) as Hdef.
    { destruct isForeground;
        [destruct (foreground theme)|destruct (background theme)]; eexists; reflexivity. }
    destruct (if isForeground then isFgDefault cell else isBgDefault cell); [exact Hdef|].
    destruct (if isForeground then isFgRGB cell else isBgRGB cell);
      [eexists; reflexivity|].
    destruct (if isForeground then isFgPalette cell else isBgPalette cell); [|exact Hdef].
    destruct (_ <? 16) eqn:E.
    + apply Z.ltb_lt in E. rewrite theme_band_entry by lia.
      destruct (theme_slot theme _) as [s|]; [now exists s|]. cbn [nullish].
      destruct (builtin_entry_defined (if isForeground then getFgColor cell
                                       else getBgColor cell)) as [s Hs]; [lia|].
      assert (idx DEFAULT_ANSI_COLORS (if isForeground then getFgColor cell
                                       else getBgColor cell) <> None) as Hsome.
      { unfold idx. replace (_ <? 0) with false by (symmetry; apply Z.ltb_ge; lia).
        apply nth_error_Some. cbn [List.length DEFAULT_ANSI_COLORS]. lia. }
      destruct (idx DEFAULT_ANSI_COLORS _) as [d|]; [now exists d|contradiction].
    + destruct (idx PALETTE_256 _) as [s|]; eexists; reflexivity.
  - intros -> -> -> Hneg.
    replace (_ <? 16) with true by (symmetry; apply Z.ltb_lt; lia).
    unfold idx_opt, idx.
    replace (_ <? 0) with true by (symmetry; apply Z.ltb_lt; lia).
    reflexivity.
Qed.

Lemma getColor_defined_witness :
  (exists s, _getColor (plain_cell "A" 1 (Palette 7) Default false) true empty_theme
               (_buildThemePalette empty_theme) = Some s)
  /\ _getColor (plain_cell "A" 1 (Palette (-3)) Default false) true empty_theme
       (_buildThemePalette empty_theme) = None.
Proof.
  split.
  - apply (getColor_defined (plain_cell "A" 1 (Palette 7) Default false) true empty_theme).
    cbn. lia.
  - apply (getColor_defined (plain_cell "A" 1 (Palette (-3)) Default false) true
             empty_theme); reflexivity.
Defined.

(** X3. The three channels of an RGB descriptor are bytes, and together they
    are the low 24 bits of the colour number: higher bits are ignored. *)
Theorem getColor_rgb_bytes (cell : IBufferCell) (isForeground : bool)
    (theme : ITheme) (themePalette : list (option string)) :
  mode_default cell isForeground = false ->
  mode_rgb cell isForeground = true ->
  exists r g b,
    _getColor cell isForeground theme themePalette
    = Some (rgb_tpl (Some r) (Some g) (Some b))
    /\ 0 <= r <= 255 /\ 0 <= g <= 255 /\ 0 <= b <= 255
    /\ r * 65536 + g * 256 + b = color_number cell isForeground mod 2 ^ 24.
Proof.
  unfold mode_default, mode_rgb, color_number, _getColor.
  intros -> ->.
  set (v := if isForeground then getFgColor cell else getBgColor cell).
  exists (Z.land (Z.shiftr v 16) 255), (Z.land (Z.shiftr v 8) 255), (Z.land v 255).
  split; [rewrite !byte_of_shift by lia; rewrite byte_of_low; reflexivity|].
  change 255 with (Z.ones 8). rewrite !Z.land_ones by lia.
  rewrite !Z.shiftr_div_pow2 by lia. change (Z.ones 8) with 255.
  change (2 ^ 16) with 65536. change (2 ^ 8) with 256. change (2 ^ 24) with 16777216.
  replace (v / 65536) with (v / 256 / 256) by (rewrite Z.div_div by lia; reflexivity).
  pose proof (Z.mod_pos_bound (v / 256 / 256) 256 ltac:(lia)) as Br.
  pose proof (Z.mod_pos_bound (v / 256) 256 ltac:(lia)) as Bg.
  pose proof (Z.mod_pos_bound v 256 ltac:(lia)) as Bb.
  repeat (split; [lia|]).
  pose proof (Z.div_mod v 256 ltac:(lia)) as D0.
  pose proof (Z.div_mod (v / 256) 256 ltac:(lia)) as D1.
  pose proof (Z.div_mod (v / 256 / 256) 256 ltac:(lia)) as D2.
  apply (Z.mod_unique v 16777216 (v / 256 / 256 / 256)); [left; lia|lia].
Qed.

Lemma getColor_rgb_bytes_witness :
  exists r g b,
    _getColor (plain_cell "A" 1 (RGB 4279383126) Default false) true empty_theme []
    = Some (rgb_tpl (Some r) (Some g) (Some b))
    /\ 0 <= r <= 255 /\ 0 <= g <= 255 /\ 0 <= b <= 255
    /\ r * 65536 + g * 256 + b = 1193046.
Proof.
  exact (getColor_rgb_bytes (plain_cell "A" 1 (RGB 4279383126) Default false) true
           empty_theme [] eq_refl eq_refl).
Defined.

(** X4. A cell that is not inverse and has the default background never gets
    a background fill: with an empty glyph it adds no call at all, and with a
    glyph its first call sets the font. *)
Theorem default_background_not_filled (a : OffscreenAddon) (theme : ITheme)
    (themePalette : list (option string)) (fontSize : Z) (fontFamily : string)
    (line : IBufferLine) (y col : Z) (ctx : Context2D) (cell : IBufferCell) :
  getCell line col = Some cell ->
  isBgDefault cell = true ->
  isInverse cell = false ->
  let after := render_cell a theme themePalette fontSize fontFamily line y col ctx in
  (getChars cell = "" -> after = ctx)
  /\ (getChars cell <> "" -> getWidth cell <> 0 ->
      exists font rest, calls after = (calls ctx ++ SetFont font :: rest)%list).
Proof.
  intros Hcell Hbg Hinv. cbv zeta.
  rewrite render_cell_calls, Hcell. unfold cell_calls.
  rewrite Hinv.
  assert (_getColor cell false theme themePalette = background theme ?? Some "#000000")
    as Hres by (unfold _getColor; rewrite Hbg; reflexivity).
  rewrite Hres.
  assert (str_neq (background theme ?? Some "#000000")
                  (background theme ?? Some "#000000") = false) as Hsame.
  { destruct (background theme); cbn; rewrite ?String.eqb_refl; reflexivity. }
  rewrite Hsame. cbn [when app].
  split.
  - intros ->. cbn [String.eqb].
    destruct (getWidth cell =? 0); rewrite app_nil_r; now destruct ctx.
  - intros Hne Hw. apply String.eqb_neq in Hne. rewrite Hne.
    replace (getWidth cell =? 0) with false by (symmetry; apply Z.eqb_neq; exact Hw).
    cbn [calls]. eexists. eexists. reflexivity.
Qed.

Lemma default_background_not_filled_witness :
  render_cell (with_metrics 8 13 (new_OffscreenAddon None)) empty_theme
    (_buildThemePalette empty_theme) 13 "monospace" sample_line 0 3 (mkCtx 0 [])
  = mkCtx 0 [].
Proof.
  exact (proj1 (default_background_not_filled
                  (with_metrics 8 13 (new_OffscreenAddon None)) empty_theme
                  (_buildThemePalette empty_theme) 13 "monospace" sample_line 0 3
                  (mkCtx 0 []) (plain_cell "" 1 Default Default false)
                  eq_refl eq_refl eq_refl) eq_refl).
Defined.

(** ** Alpha and anchors of the calls of a cell *)

Lemma cell_calls_alpha (cw ch : Z) (theme : ITheme) (themePalette : list (option string))
    (fontSize : Z) (fontFamily : string) (cell : IBufferCell) (y col : Z) :
  final_alpha (cell_calls cw ch theme themePalette fontSize fontFamily cell y col) 1 = 1%Q.
Proof.
  unfold cell_calls.
  destruct (getWidth cell =? 0); [reflexivity|].
  destruct (str_neq _ _), (String.eqb (getChars cell) ""); try reflexivity;
    destruct (isDim cell), (isUnderline cell), (isStrikethrough cell), (isOverline cell);
    reflexivity.
Qed.

Lemma cell_calls_in_grid (cw ch : Z) (theme : ITheme) (themePalette : list (option string))
    (fontSize : Z) (fontFamily : string) (cell : IBufferCell) (row col ncols nrows : Z) :
  0 <= col < ncols -> 0 <= row < nrows ->
  Forall (at_grid_cell cw ch fontSize ncols nrows)
         (cell_calls cw ch theme themePalette fontSize fontFamily cell (row * ch) col).
Proof.
  intros Hcol Hrow. unfold cell_calls.
  destruct (getWidth cell =? 0); [constructor|].
  destruct (str_neq _ _), (String.eqb (getChars cell) "");
    try destruct (isDim cell); try destruct (isUnderline cell);
    try destruct (isStrikethrough cell); try destruct (isOverline cell);
    cbn [when app];
    repeat (first [apply Forall_nil | apply Forall_cons]);
    cbn [at_grid_cell]; try exact I;
    exists col, row; (split; [exact Hcol|]); (split; [exact Hrow|]);
    (split; [reflexivity|]);
    first [reflexivity
          | left; reflexivity
          | right; left; reflexivity
          | right; right; reflexivity].
Qed.

(** X14. In a dim cell only the glyph is drawn at half alpha: the background
    fill and the underline, strikethrough and overline of every cell are
    drawn at full alpha, as is the glyph of a cell that is not dim. *)
Theorem dim_glyph_only (a : OffscreenAddon) (theme : ITheme)
    (themePalette : list (option string)) (fontSize : Z) (fontFamily : string)
    (line : IBufferLine) (y col : Z) (ctx : Context2D) (cell : IBufferCell) :
  getCell line col = Some cell ->
  exists added,
    calls (render_cell a theme themePalette fontSize fontFamily line y col ctx)
    = (calls ctx ++ added)%list
    /\ Forall (dim_applies_to_glyph (isDim cell)) (draw_alphas added 1)
    /\ final_alpha added 1 = 1%Q.
Proof.
  intros Hcell. rewrite render_cell_calls, Hcell. cbn [calls].
  eexists. split; [reflexivity|]. split; [|apply cell_calls_alpha].
  unfold cell_calls.
  destruct (getWidth cell =? 0); [constructor|].
  destruct (str_neq _ _), (String.eqb (getChars cell) "");
    try destruct (isDim cell); try destruct (isUnderline cell);
    try destruct (isStrikethrough cell); try destruct (isOverline cell);
    cbn [when app draw_alphas];
    repeat (first [apply Forall_nil | apply Forall_cons]);
    reflexivity.
Qed.

Lemma dim_glyph_only_witness :
  exists added,
    calls (render_cell (with_metrics 8 13 (new_OffscreenAddon None)) empty_theme
             (_buildThemePalette empty_theme) 13 "monospace"
             (mkLine (fun _ =>
                Some (mkCell 1 "d" 1 4 false false true false false true
                             false false true true false false false)))
             0 0 (mkCtx 0 []))
    = ([] ++ added)%list
    /\ Forall (dim_applies_to_glyph true) (draw_alphas added 1)
    /\ final_alpha added 1 = 1%Q.
Proof.
  exact (dim_glyph_only (with_metrics 8 13 (new_OffscreenAddon None)) empty_theme
           (_buildThemePalette empty_theme) 13 "monospace"
           (mkLine (fun _ =>
              Some (mkCell 1 "d" 1 4 false false true false false true
                           false false true true false false false)))
           0 0 (mkCtx 0 []) _ eq_refl).
Defined.

(** X20. Decorations are drawn with the glyph only: a cell whose glyph is
    empty gets at most its background fill, and neither text nor underline,
    strikethrough or overline, whatever its flags. *)
Theorem empty_glyph_no_decoration (a : OffscreenAddon) (theme : ITheme)
    (themePalette : list (option string)) (fontSize : Z) (fontFamily : string)
    (line : IBufferLine) (y col : Z) (ctx : Context2D) (cell : IBufferCell) :
  getCell line col = Some cell ->
  getChars cell = "" ->
  exists added,
    calls (render_cell a theme themePalette fontSize fontFamily line y col ctx)
    = (calls ctx ++ added)%list
    /\ filter is_fillText added = []
    /\ (added = []
        \/ exists color,
             added = [SetFillStyle color;
                      FillRect (zq (col * _cellWidth a)) (zq y)
                               (zq (_cellWidth a * getWidth cell)) (zq (_cellHeight a))]).
Proof.
  intros Hcell Hchars. rewrite render_cell_calls, Hcell. cbn [calls].
  eexists. split; [reflexivity|]. unfold cell_calls. rewrite Hchars. cbn [String.eqb].
  destruct (getWidth cell =? 0); [split; [reflexivity|now left]|].
  destruct (str_neq _ _); cbn [when app filter is_fillText].
  - split; [reflexivity|]. right. eexists. reflexivity.
  - split; [reflexivity|]. now left.
Qed.

Lemma empty_glyph_no_decoration_witness :
  exists added,
    calls (render_cell (with_metrics 8 13 (new_OffscreenAddon None)) empty_theme
             (_buildThemePalette empty_theme) 13 "monospace"
             (mkLine (fun _ =>
                Some (mkCell 1 "" 1 4 false false true false false true
                             false false false true true true false)))
             0 0 (mkCtx 0 []))
    = ([] ++ added)%list
    /\ filter is_fillText added = []
    /\ (added = []
        \/ exists color, added = [SetFillStyle color; FillRect 0 0 8 13]).
Proof.
  exact (empty_glyph_no_decoration (with_metrics 8 13 (new_OffscreenAddon None)) empty_theme
           (_buildThemePalette empty_theme) 13 "monospace"
           (mkLine (fun _ =>
              Some (mkCell 1 "" 1 4 false false true false false true
                           false false false true true true false)))
           0 0 (mkCtx 0 []) _ eq_refl eq_refl).
Defined.

Section FrameFacts.

Variable fmul : JsNum -> JsNum -> JsNum.
Variable Math_ceil : JsNum -> Z.
Variable Math_round : JsNum -> Z.

Local Abbreviation measure_cell := (measure_cell fmul Math_ceil).
Local Abbreviation computed_size := (computed_size fmul Math_ceil).
Local Abbreviation _updateDimensions := (_updateDimensions fmul Math_ceil).
Local Abbreviation _render := (_render fmul Math_ceil Math_round).
Local Abbreviation capture := (capture fmul Math_ceil Math_round).
Local Abbreviation getCanvas := (getCanvas fmul Math_ceil Math_round).
Local Abbreviation activate := (activate fmul Math_ceil).
Local Abbreviation renderTo := (renderTo fmul Math_ceil Math_round).
Local Abbreviation frame_fontSize := (frame_fontSize fmul Math_round).

Lemma render_content_calls (a : OffscreenAddon) (t : Terminal) (c : OffscreenCanvas)
    (ctx : Context2D) :
  let theme := nullish_or (theme (options t)) empty_theme in
  let fontFamily :=
    nullish_or (fontFamily (options t)) "courier-new, courier, monospace" in
  render_content fmul Math_round a t c theme ctx
  = mkCtx (ctx_canvas ctx)
      (calls ctx
       ++ setup_calls c theme (frame_fontSize a t) fontFamily
       ++ rows_calls (_cellWidth a) (_cellHeight a) t theme (_buildThemePalette theme)
            (frame_fontSize a t) fontFamily).
Proof.
  cbv zeta. unfold render_content, for_range, rows_calls.
  rewrite (fold_appends
             (fun row =>
                match getLine (buffer_active t) (viewportY (buffer_active t) + row) with
                | None => []
                | Some line =>
                  line_calls (_cellWidth a) (_cellHeight a)
                    (nullish_or (theme (options t)) empty_theme)
                    (_buildThemePalette (nullish_or (theme (options t)) empty_theme))
                    (frame_fontSize a t)
                    (nullish_or (fontFamily (options t)) "courier-new, courier, monospace")
                    line (row * _cellHeight a) (cols t)
                end)).
  - unfold setup_calls, set_font, set_textBaseline, fillRect, set_fillStyle, emit.
    cbn [ctx_canvas calls]. rewrite <- !app_assoc. cbn [app].
    destruct (background (nullish_or (theme (options t)) empty_theme)); reflexivity.
  - intros row x. apply render_row_calls.
Qed.

(** A render of an attached addon appends one frame to its context. *)
Lemma render_appends_frame (a : OffscreenAddon) (t : Terminal) :
  _terminal a = Some t ->
  has_context a ->
  exists c x,
    _canvas (_updateDimensions a) = Some c
    /\ _ctx (_updateDimensions a) = Some x
    /\ _render a
       = with_ctx
           (Some (mkCtx (ctx_canvas x)
                    (calls x ++ frame_calls (_updateDimensions a) t c (frame_fontSize a t))))
           (_updateDimensions a).
Proof.
  intros Ht Hctx.
  destruct (updateDimensions_canvas fmul Math_ceil a t Ht) as [c Hc].
  destruct (updateDimensions_ctx fmul Math_ceil a t Ht Hctx) as [x Hx].
  exists c, x. split; [exact Hc|]. split; [exact Hx|].
  rewrite (render_ctx fmul Math_ceil Math_round a t c x Ht Hc Hx). cbv zeta.
  rewrite render_cursor_calls.
  pose proof (render_content_calls (_updateDimensions a) t c x) as Hcontent.
  cbv zeta in Hcontent. rewrite Hcontent. cbn [ctx_canvas calls].
  unfold frame_calls, frame_fontSize. rewrite updateDimensions_options.
  rewrite <- !app_assoc. reflexivity.
Qed.

(** ** The methods around a render *)

Lemma capture_state (options : option ICaptureOptions) (a : OffscreenAddon) :
  fst (capture options a) = _render a.
Proof.
  destruct (_terminal a) as [t|] eqn:Ht.
  - destruct (capture_attached fmul Math_ceil Math_round options a t Ht) as (c & _ & ->).
    reflexivity.
  - unfold capture, _render. rewrite Ht. reflexivity.
Qed.

Lemma getCanvas_state (a : OffscreenAddon) :
  fst (getCanvas a) = _render a.
Proof.
  unfold getCanvas. destruct (_terminal a) as [t|] eqn:Ht.
  - destruct (_canvas (_render a)); reflexivity.
  - unfold _render. rewrite Ht. reflexivity.
Qed.

(** X5. The scale factor of the addon is always finite and positive: it is
    so in a new addon whatever the options given, and setOptions, a render,
    activate, dispose, capture and getCanvas keep it so.  An invalid
    scaleFactor given to setOptions resets the scale to 1; it does not keep
    the previous one. *)
Theorem scale_always_valid (a : OffscreenAddon) :
  (forall o, scale_valid (scaleFactor (_options (new_OffscreenAddon o))) = true)
  /\ (scale_valid (scaleFactor (_options a)) = true ->
      (forall o, scale_valid (scaleFactor (_options (setOptions o a))) = true)
      /\ scale_valid (scaleFactor (_options (_render a))) = true
      /\ (forall t, scale_valid (scaleFactor (_options (activate t a))) = true)
      /\ scale_valid (scaleFactor (_options (dispose a))) = true
      /\ (forall o, scale_valid (scaleFactor (_options (fst (capture o a)))) = true)
      /\ scale_valid (scaleFactor (_options (fst (getCanvas a)))) = true)
  /\ (forall o v, opt_scaleFactor o = Some v -> scale_valid v = false ->
        scaleFactor (_options (setOptions o a)) = Fin 1).
Proof.
  split; [|split].
  - intros o. apply validateScaleFactor_valid.
  - intros Hv. split; [|split; [|split; [|split; [|split]]]].
    + intros o. unfold setOptions.
      destruct (opt_scaleFactor o) as [v|], (opt_showCursor o) as [b|];
        cbn; try exact Hv; apply validateScaleFactor_valid.
    + now rewrite render_options.
    + intros t. unfold activate. now rewrite updateDimensions_options.
    + exact Hv.
    + intros o. now rewrite capture_state, render_options.
    + now rewrite getCanvas_state, render_options.
  - intros o v Ho Hbad. unfold setOptions. rewrite Ho.
    assert (_validateScaleFactor v = Fin 1) as ->.
    { unfold scale_valid in Hbad. unfold _validateScaleFactor.
      destruct v as [| | |x]; cbn in *; try reflexivity.
      apply negb_false_iff in Hbad. now rewrite Hbad. }
    destruct (opt_showCursor o); reflexivity.
Qed.

(** X6. setOptions merges the fields given into the current options and
    keeps the others; it leaves the terminal attached and always drops the
    raster and its context, so that getDimensions reports a 0 x 0 raster
    (with the grid size unchanged) until the next render; applying the same
    options a second time changes nothing more. *)
Theorem setOptions_merges (o : IOffscreenAddonOptions) (a : OffscreenAddon) :
  let a' := setOptions o a in
  showCursor (_options a') = nullish_or (opt_showCursor o) (showCursor (_options a))
  /\ scaleFactor (_options a')
     = match opt_scaleFactor o with
       | Some v => _validateScaleFactor v
       | None => scaleFactor (_options a)
       end
  /\ _terminal a' = _terminal a
  /\ _canvas a' = None /\ _ctx a' = None
  /\ getDimensions a'
     = mkDimensions 0 0 (dim_cols (getDimensions a)) (dim_rows (getDimensions a))
  /\ setOptions o a' = a'.
Proof.
  cbv zeta. unfold setOptions, getDimensions.
  destruct (opt_scaleFactor o) as [v|], (opt_showCursor o) as [b|];
    cbn; repeat split; reflexivity.
Qed.

(** X7. After a render with a terminal attached, getDimensions reports the
    raster size cols * cellWidth by rows * cellHeight and the grid size of
    the terminal, and getCanvas returns a canvas of exactly that size. *)
Theorem getDimensions_after_render (a : OffscreenAddon) (t : Terminal) :
  _terminal a = Some t ->
  let cell := measure_cell t (scaleFactor (_options a)) in
  getDimensions (_render a)
  = mkDimensions (cols t * fst cell) (rows t * snd cell) (cols t) (rows t)
  /\ _cellWidth (_render a) = fst cell
  /\ _cellHeight (_render a) = snd cell
  /\ exists canvas,
       snd (getCanvas a) = inr canvas
       /\ canvas_width canvas = cols t * fst cell
       /\ canvas_height canvas = rows t * snd cell.
Proof.
  intros Ht. cbv zeta.
  pose proof (render_fits fmul Math_ceil Math_round a t Ht) as Hfit.
  unfold raster_fits in Hfit.
  destruct (_canvas (_render a)) as [c|] eqn:Hc; [|discriminate].
  apply andb_true_iff in Hfit. destruct Hfit as [Hw Hh].
  apply Z.eqb_eq in Hw, Hh. cbn [computed_size fst snd] in Hw, Hh.
  unfold computed_size in Hw, Hh. cbn [fst snd] in Hw, Hh.
  split; [|split; [|split]].
  - unfold getDimensions. rewrite Hc, render_terminal, Ht. cbn. now rewrite Hw, Hh.
  - destruct (render_frame fmul Math_ceil Math_round a) as [x ->]. cbn [with_ctx _cellWidth].
    rewrite (updateDimensions_attached fmul Math_ceil a t Ht). cbv zeta.
    destruct (raster_fits a _); reflexivity.
  - destruct (render_frame fmul Math_ceil Math_round a) as [x ->]. cbn [with_ctx _cellHeight].
    rewrite (updateDimensions_attached fmul Math_ceil a t Ht). cbv zeta.
    destruct (raster_fits a _); reflexivity.
  - exists c. unfold getCanvas. rewrite Ht, Hc. cbn [snd]. now repeat split.
Qed.

(** X8. activate attaches the terminal and makes sure at once, before any
    render, that a raster of the computed size exists, which getDimensions
    reports; on an addon without raster (new, disposed, or after setOptions)
    it constructs a new canvas whose context has received no call. *)
Theorem activate_allocates (t : Terminal) (a : OffscreenAddon) :
  let cell := measure_cell t (scaleFactor (_options a)) in
  _terminal (activate t a) = Some t
  /\ getDimensions (activate t a)
     = mkDimensions (cols t * fst cell) (rows t * snd cell) (cols t) (rows t)
  /\ (_canvas a = None ->
      _canvas (activate t a)
      = Some (mkCanvas (allocated a) (cols t * fst cell) (rows t * snd cell))
      /\ _ctx (activate t a) = Some (mkCtx (allocated a) [])).
Proof.
  cbv zeta. unfold activate.
  rewrite (updateDimensions_attached fmul Math_ceil (with_terminal (Some t) a) t eq_refl).
  cbv zeta. destruct a as [tm cv cx op cw ch chw chh n].
  unfold raster_fits, computed_size, getDimensions.
  cbn [with_terminal with_metrics with_canvas _terminal _canvas _ctx _options allocated
       fst snd].
  destruct cv as [c|].
  - destruct (canvas_width c =? _) eqn:Ew, (canvas_height c =? _) eqn:Eh;
      cbn [andb with_terminal with_metrics with_canvas _terminal _canvas _ctx _options
           allocated option_map nullish_or canvas_width canvas_height];
      (split; [reflexivity|]); (split; [|discriminate]); try reflexivity.
    apply Z.eqb_eq in Ew, Eh. now rewrite Ew, Eh.
  - cbn. repeat split; reflexivity.
Qed.

Lemma activate_dispose_canvas (t : Terminal) (a : OffscreenAddon) :
  exists c, _canvas (activate t (dispose a)) = Some c /\ canvas_id c = allocated a.
Proof.
  unfold activate.
  rewrite (updateDimensions_attached fmul Math_ceil
             (with_terminal (Some t) (dispose a)) t eq_refl).
  cbv zeta. eexists. split; reflexivity.
Qed.

(** X9. dispose releases the terminal, the raster and its context and keeps
    the options: getDimensions then reports zeros, a render does nothing,
    and a second dispose changes nothing.  Activating again constructs a new
    canvas, not the one released. *)
Theorem dispose_releases (a : OffscreenAddon) :
  getDimensions (dispose a) = mkDimensions 0 0 0 0
  /\ _ctx (dispose a) = None
  /\ _options (dispose a) = _options a
  /\ _render (dispose a) = dispose a
  /\ dispose (dispose a) = dispose a
  /\ (ids_fresh a ->
      forall t old, _canvas a = Some old ->
        exists c, _canvas (activate t (dispose a)) = Some c
                  /\ canvas_id c <> canvas_id old).
Proof.
  split; [reflexivity|]. split; [reflexivity|]. split; [reflexivity|].
  split; [reflexivity|]. split; [reflexivity|].
  intros Hfresh t old Hold.
  destruct (activate_dispose_canvas t a) as [c [Hc Hid]].
  exists c. split; [exact Hc|]. specialize (Hfresh old Hold). lia.
Qed.

(** X10. renderTo renders, then makes exactly one drawImage call on the
    caller's context, after the calls already there, with the canvas of the
    render and a destination that defaults to the origin and the canvas
    size; detached, it fails with the not-activated error and the caller's
    context receives nothing. *)
Theorem renderTo_blits (targetCtx : list TargetCall) (options : option IRenderToOptions)
    (a : OffscreenAddon) :
  (_terminal a = None -> renderTo targetCtx options a = (a, inl AddonNotActivated))
  /\ (forall t, _terminal a = Some t ->
      exists canvas,
        _canvas (_render a) = Some canvas
        /\ renderTo targetCtx options a
           = (_render a,
              inr (targetCtx ++
                   [DrawImage canvas
                      (nullish_or (match options with Some o => rt_x o | None => None end)
                                  (Fin 0))
                      (nullish_or (match options with Some o => rt_y o | None => None end)
                                  (Fin 0))
                      (nullish_or (match options with
                                   | Some o => rt_width o | None => None end)
                                  (Fin (zq (canvas_width canvas))))
                      (nullish_or (match options with
                                   | Some o => rt_height o | None => None end)
                                  (Fin (zq (canvas_height canvas))))])%list)
        /\ renderTo targetCtx None a
           = renderTo targetCtx
               (Some (mkRenderToOptions (Some (Fin 0)) (Some (Fin 0))
                        (Some (Fin (zq (canvas_width canvas))))
                        (Some (Fin (zq (canvas_height canvas)))))) a).
Proof.
  split.
  - intros Ht. unfold renderTo, getCanvas. rewrite Ht. reflexivity.
  - intros t Ht.
    destruct (render_canvas_attached fmul Math_ceil Math_round a t Ht) as [c Hc].
    exists c. split; [exact Hc|].
    unfold renderTo, getCanvas. rewrite Ht, Hc. split; reflexivity.
Qed.

(** X11. capture and getCanvas leave the addon as a render leaves it,
    whatever the options and also when capture fails on the format; with a
    terminal attached, the canvas capture exports is the one getCanvas
    returns.  Omitted options stand for imageBitmap, image/png and 0.92, and
    an imageBitmap export depends on neither type nor quality. *)
Theorem capture_renders (options : option ICaptureOptions) (a : OffscreenAddon) :
  fst (capture options a) = _render a
  /\ fst (getCanvas a) = _render a
  /\ (forall t e, _terminal a = Some t -> snd (capture options a) = inr e ->
        snd (getCanvas a) = inr (export_canvas e))
  /\ capture None a
     = capture (Some (mkCaptureOptions (Some "imageBitmap") (Some "image/png")
                        (Some (Fin (23 # 25))))) a
  /\ (forall ty ty' q q',
        capture (Some (mkCaptureOptions (Some "imageBitmap") ty q)) a
        = capture (Some (mkCaptureOptions (Some "imageBitmap") ty' q')) a).
Proof.
  split; [apply capture_state|]. split; [apply getCanvas_state|].
  split; [|split].
  - intros t e Ht He.
    destruct (capture_attached fmul Math_ceil Math_round options a t Ht)
      as (c & Hc & Hcap).
    rewrite Hcap in He. cbv zeta in He. cbn [snd] in He.
    unfold getCanvas. rewrite Ht, Hc. cbn [snd]. f_equal.
    repeat match type of He with
           | context [if ?b then _ else _] => destruct b
           end; inversion He; reflexivity.
  - reflexivity.
  - intros ty ty' q q'. unfold capture. cbn [format nullish_or String.eqb].
    destruct (_terminal a); [|reflexivity].
    destruct (_canvas (_render a)); reflexivity.
Qed.

(** ** Whole frames *)

Lemma updateDimensions_size (a : OffscreenAddon) (t : Terminal) (c : OffscreenCanvas) :
  _terminal a = Some t ->
  _canvas (_updateDimensions a) = Some c ->
  canvas_width c = cols t * fst (measure_cell t (scaleFactor (_options a)))
  /\ canvas_height c = rows t * snd (measure_cell t (scaleFactor (_options a))).
Proof.
  intros Ht Hc.
  pose proof (render_fits fmul Math_ceil Math_round a t Ht) as Hfit.
  unfold raster_fits in Hfit. rewrite render_canvas, Hc in Hfit.
  apply andb_true_iff in Hfit. destruct Hfit as [Hw Hh].
  apply Z.eqb_eq in Hw, Hh. now split.
Qed.

Lemma updateDimensions_again (a : OffscreenAddon) (t : Terminal) (x : option Context2D) :
  _terminal a = Some t ->
  _updateDimensions (with_ctx x (_updateDimensions a)) = with_ctx x (_updateDimensions a).
Proof.
  intros Ht.
  destruct (updateDimensions_canvas fmul Math_ceil a t Ht) as [c Hc].
  destruct (updateDimensions_size a t c Ht Hc) as [Hw Hh].
  assert (_cellWidth (_updateDimensions a) = fst (measure_cell t (scaleFactor (_options a)))
          /\ _cellHeight (_updateDimensions a)
             = snd (measure_cell t (scaleFactor (_options a)))
          /\ _charWidth (_updateDimensions a) = fst (measure_cell t (scaleFactor (_options a)))
          /\ _charHeight (_updateDimensions a)
             = snd (measure_cell t (scaleFactor (_options a)))) as (Hcw & Hch & Hxw & Hxh).
  { rewrite (updateDimensions_attached fmul Math_ceil a t Ht). cbv zeta.
    destruct (raster_fits a _); repeat split; reflexivity. }
  pose proof (updateDimensions_terminal fmul Math_ceil a) as Ht'. rewrite Ht in Ht'.
  pose proof (updateDimensions_options fmul Math_ceil a) as Ho.
  rewrite (updateDimensions_attached fmul Math_ceil
             (with_ctx x (_updateDimensions a)) t Ht').
  cbv zeta. cbn [with_ctx _options]. rewrite Ho.
  unfold raster_fits, computed_size. cbn [with_ctx _canvas fst snd]. rewrite Hc, Hw, Hh.
  rewrite !Z.eqb_refl. cbn [andb].
  destruct (_updateDimensions a) as [tm cv cx op cw ch chw chh n].
  cbn in Hcw, Hch, Hxw, Hxh. subst cw ch chw chh. reflexivity.
Qed.

(** X12. Every render of an attached addon opens the frame the same way: it
    fills the whole raster, from the origin to cols * cellWidth by
    rows * cellHeight, with the theme background ('#000000' without one),
    then sets the baseline 'top' and the base font, before any cell.  The
    calls go to the context kept from the last frame when the raster still
    fits, and to the empty context of a new canvas otherwise. *)
Theorem render_opens_with_clear (a : OffscreenAddon) (t : Terminal) :
  _terminal a = Some t ->
  has_context a ->
  let cell := measure_cell t (scaleFactor (_options a)) in
  let theme := nullish_or (theme (options t)) empty_theme in
  let fontFamily :=
    nullish_or (fontFamily (options t)) "courier-new, courier, monospace" in
  exists x rest,
    (if raster_fits a (computed_size t (scaleFactor (_options a)))
     then _ctx a = Some x
     else x = mkCtx (allocated a) [])
    /\ _ctx (_render a)
       = Some (mkCtx (ctx_canvas x)
                 (calls x
                  ++ [ SetFillStyle (Some (nullish_or (background theme) "#000000"));
                       FillRect 0 0 (zq (cols t * fst cell)) (zq (rows t * snd cell));
                       SetTextBaseline "top";
                       SetFont (num_to_string (frame_fontSize a t) ++ "px " ++ fontFamily) ]
                  ++ rest)).
Proof.
  intros Ht Hctx. cbv zeta.
  destruct (render_appends_frame a t Ht Hctx) as (c & x & Hc & Hx & Hr).
  destruct (updateDimensions_size a t c Ht Hc) as [Hw Hh].
  exists x. eexists. split.
  - rewrite (updateDimensions_attached fmul Math_ceil a t Ht) in Hx. cbv zeta in Hx.
    destruct (raster_fits a _).
    + exact Hx.
    + cbn in Hx. now injection Hx as <-.
  - rewrite Hr. cbn [with_ctx _ctx]. unfold frame_calls, setup_calls.
    rewrite Hw, Hh. cbn [app]. reflexivity.
Qed.

(** X13. A render is a complete re-render: rendering twice in a row, the
    terminal unchanged, appends the same frame twice to the context the
    first render starts from (the context kept from before when the raster
    still fits, the empty context of a new canvas otherwise); nothing of
    the first frame changes the second. *)
Theorem render_repeats (a : OffscreenAddon) (t : Terminal) :
  _terminal a = Some t ->
  has_context a ->
  exists x frame,
    _ctx (_updateDimensions a) = Some x
    /\ (if raster_fits a (computed_size t (scaleFactor (_options a)))
        then _ctx a = Some x
        else x = mkCtx (allocated a) [])
    /\ _ctx (_render a) = Some (mkCtx (ctx_canvas x) (calls x ++ frame))
    /\ _ctx (_render (_render a))
       = Some (mkCtx (ctx_canvas x) (calls x ++ frame ++ frame))
    /\ _canvas (_render (_render a)) = _canvas (_render a)
    /\ frame <> [].
Proof.
  intros Ht Hctx.
  destruct (render_appends_frame a t Ht Hctx) as (c & x & Hc & Hx & Hr).
  assert (_terminal (_render a) = Some t) as Ht1 by (rewrite render_terminal; exact Ht).
  assert (has_context (_render a)) as Hctx1.
  { rewrite Hr. intros _. discriminate. }
  destruct (render_appends_frame (_render a) t Ht1 Hctx1) as (c2 & x2 & Hc2 & Hx2 & Hr2).
  assert (_updateDimensions (_render a) = _render a) as Hagain.
  { rewrite Hr. apply (updateDimensions_again a t _ Ht). }
  assert (frame_fontSize (_render a) t = frame_fontSize a t) as Hfs.
  { unfold frame_fontSize. now rewrite render_options. }
  rewrite Hagain in Hc2, Hx2, Hr2. rewrite Hfs in Hr2.
  assert (frame_calls (_render a) t c2 (frame_fontSize a t)
          = frame_calls (_updateDimensions a) t c (frame_fontSize a t)) as Hframe.
  { rewrite Hr in Hc2 |- *. cbn [with_ctx _canvas] in Hc2.
    rewrite Hc in Hc2. injection Hc2 as <-. reflexivity. }
  rewrite Hframe in Hr2.
  exists x, (frame_calls (_updateDimensions a) t c (frame_fontSize a t)).
  split; [exact Hx|].
  split.
  { pose proof Hx as Hx'.
    rewrite (updateDimensions_attached fmul Math_ceil a t Ht) in Hx'. cbv zeta in Hx'.
    destruct (raster_fits a _).
    - exact Hx'.
    - cbn in Hx'. now injection Hx' as <-. }
  split; [rewrite Hr; reflexivity|].
  assert (x2 = mkCtx (ctx_canvas x)
                 (calls x ++ frame_calls (_updateDimensions a) t c (frame_fontSize a t)))
    as ->.
  { rewrite Hr in Hx2. cbn [with_ctx _ctx] in Hx2. now injection Hx2 as <-. }
  split; [|split].
  - rewrite Hr2. cbn [with_ctx _ctx ctx_canvas calls]. now rewrite <- app_assoc.
  - rewrite Hr2. reflexivity.
  - unfold frame_calls, setup_calls. discriminate.
Qed.

Lemma flat_map_nil {I B : Type} (g : I -> list B) (l : list I) :
  (forall i, In i l -> g i = []) -> flat_map g l = [].
Proof.
  intros H. induction l as [|i l IH]; [reflexivity|].
  cbn [flat_map]. rewrite (H i) by (left; reflexivity).
  apply IH. intros j Hj. apply H. now right.
Qed.

Lemma updateDimensions_changed (a : OffscreenAddon) (t1 t2 : Terminal) :
  _terminal a = Some t1 ->
  cols t2 = cols t1 -> rows t2 = rows t1 ->
  options t2 = options t1 -> css_cell t2 = css_cell t1 ->
  _updateDimensions (terminal_changed t2 a)
  = with_terminal (Some t2) (_updateDimensions a).
Proof.
  intros Ht Hcols Hrows Hopt Hcss.
  unfold terminal_changed, _updateDimensions. rewrite Ht.
  cbn [with_terminal _terminal _options with_metrics _canvas _cellWidth _cellHeight].
  assert (forall s, measure_cell t2 s = measure_cell t1 s) as Hm.
  { intros s0. unfold measure_cell. now rewrite Hopt, Hcss. }
  rewrite !Hm, Hcols, Hrows.
  destruct (_canvas a) as [c|]; [|reflexivity].
  match goal with |- context [if ?b then _ else _] => destruct b end; reflexivity.
Qed.

(** X15. Rows whose line the buffer does not have, and cells a line does not
    have, are skipped without error: when no cell of the viewport is
    available, the frame is the opening (clear, baseline, font) followed by
    the cursor highlight if it is due, and nothing else. *)
Theorem unavailable_rows_skipped (a : OffscreenAddon) (t : Terminal) :
  _terminal a = Some t ->
  has_context a ->
  (forall row, 0 <= row < rows t ->
     match getLine (buffer_active t) (viewportY (buffer_active t) + row) with
     | None => True
     | Some line => forall col, 0 <= col < cols t -> getCell line col = None
     end) ->
  exists c x,
    _canvas (_render a) = Some c
    /\ _ctx (_updateDimensions a) = Some x
    /\ _ctx (_render a)
       = Some (mkCtx (ctx_canvas x)
                 (calls x
                  ++ setup_calls c (nullish_or (theme (options t)) empty_theme)
                       (frame_fontSize a t)
                       (nullish_or (fontFamily (options t))
                                   "courier-new, courier, monospace")
                  ++ when (showCursor (_options a) && cursor_in_viewport t)
                       (cursor_highlight (_cellWidth (_render a))
                                         (_cellHeight (_render a)) t))).
Proof.
  intros Ht Hctx Hnone.
  destruct (render_appends_frame a t Ht Hctx) as (c & x & Hc & Hx & Hr).
  exists c, x. split; [rewrite render_canvas; exact Hc|]. split; [exact Hx|].
  rewrite Hr. cbn [with_ctx _ctx _cellWidth _cellHeight]. unfold frame_calls.
  rewrite updateDimensions_options.
  replace (rows_calls _ _ _ _ _ _ _) with (@nil CanvasCall); [reflexivity|].
  symmetry. unfold rows_calls. apply flat_map_nil. intros row Hin.
  apply range_bounds in Hin. specialize (Hnone row Hin).
  destruct (getLine _ _) as [line|]; [|reflexivity].
  unfold line_calls. apply flat_map_nil. intros col Hcol.
  apply range_bounds in Hcol. now rewrite (Hnone col Hcol).
Qed.

(** X16. A frame depends on the buffer only through the cells of the
    viewport: if the terminal changes to one with the same grid size,
    options, cell metrics source and cursor position that shows the same
    cells at rows viewportY .. viewportY + rows - 1 and columns
    0 .. cols - 1 (another scroll position, other content outside the
    viewport), the render makes the same calls on the same canvas. *)
Theorem frame_reads_viewport_only (a : OffscreenAddon) (t1 t2 : Terminal) :
  _terminal a = Some t1 ->
  has_context a ->
  cols t2 = cols t1 -> rows t2 = rows t1 ->
  options t2 = options t1 -> css_cell t2 = css_cell t1 ->
  cursorX (buffer_active t2) = cursorX (buffer_active t1) ->
  cursorY (buffer_active t2) = cursorY (buffer_active t1) ->
  same_viewport t1 t2 ->
  _ctx (_render (terminal_changed t2 a)) = _ctx (_render a)
  /\ _canvas (_render (terminal_changed t2 a)) = _canvas (_render a).
Proof.
  intros Ht Hctx Hcols Hrows Hopt Hcss Hcx Hcy Hview.
  assert (_terminal (terminal_changed t2 a) = Some t2) as Ht2.
  { unfold terminal_changed. rewrite Ht. reflexivity. }
  assert (has_context (terminal_changed t2 a)) as Hctx2.
  { unfold terminal_changed. rewrite Ht. exact Hctx. }
  destruct (render_appends_frame a t1 Ht Hctx) as (c & x & Hc & Hx & Hr).
  destruct (render_appends_frame _ t2 Ht2 Hctx2) as (c2 & x2 & Hc2 & Hx2 & Hr2).
  rewrite (updateDimensions_changed a t1 t2 Ht Hcols Hrows Hopt Hcss) in Hc2, Hx2, Hr2.
  cbn [with_terminal _canvas _ctx] in Hc2, Hx2.
  rewrite Hc in Hc2. injection Hc2 as <-. rewrite Hx in Hx2. injection Hx2 as <-.
  rewrite Hr, Hr2. cbn [with_ctx _ctx _canvas with_terminal]. split; [|reflexivity].
  do 3 f_equal.
  assert (frame_fontSize (terminal_changed t2 a) t2 = frame_fontSize a t1) as ->.
  { unfold frame_fontSize, terminal_changed. rewrite Ht, Hopt. reflexivity. }
  unfold frame_calls. cbn [with_terminal _cellWidth _cellHeight _options].
  rewrite Hopt. f_equal. f_equal.
  - unfold rows_calls. rewrite Hrows. apply flat_map_agree. intros row Hin.
    apply range_bounds in Hin. specialize (Hview row Hin).
    destruct (getLine (buffer_active t1) _) as [l1|],
             (getLine (buffer_active t2) _) as [l2|]; try contradiction; [|reflexivity].
    unfold line_calls. rewrite Hcols. apply flat_map_agree. intros col Hcol.
    apply range_bounds in Hcol. now rewrite (Hview col Hcol).
  - unfold cursor_in_viewport, cursor_highlight. now rewrite Hcx, Hcy, Hcols, Hrows, Hopt.
Qed.

(** X17. A render leaves the context at full alpha: the dim glyphs and the
    cursor highlight set it to 0.5 and set it back, so that the clear and
    the cells of the next frame are painted opaque. *)
Theorem render_keeps_alpha (a : OffscreenAddon) (t : Terminal) :
  _terminal a = Some t ->
  has_context a ->
  (forall x, _ctx a = Some x -> ctx_alpha x = 1%Q) ->
  exists x', _ctx (_render a) = Some x' /\ ctx_alpha x' = 1%Q.
Proof.
  intros Ht Hctx Halpha.
  destruct (render_appends_frame a t Ht Hctx) as (c & x & Hc & Hx & Hr).
  eexists. split; [rewrite Hr; reflexivity|].
  assert (ctx_alpha x = 1%Q) as Hx1.
  { rewrite (updateDimensions_attached fmul Math_ceil a t Ht) in Hx. cbv zeta in Hx.
    destruct (raster_fits a _).
    - apply Halpha. exact Hx.
    - cbn in Hx. injection Hx as <-. reflexivity. }
  unfold ctx_alpha in *. cbn [calls].
  rewrite final_alpha_app, Hx1. unfold frame_calls.
  rewrite !final_alpha_app. unfold setup_calls at 1. cbn [final_alpha fold_left].
  fold (final_alpha (rows_calls (_cellWidth (_updateDimensions a))
                       (_cellHeight (_updateDimensions a)) t
                       (nullish_or (theme (options t)) empty_theme)
                       (_buildThemePalette (nullish_or (theme (options t)) empty_theme))
                       (frame_fontSize a t)
                       (nullish_or (fontFamily (options t))
                                   "courier-new, courier, monospace")) 1).
  assert (forall cw ch th tp fs ff, final_alpha (rows_calls cw ch t th tp fs ff) 1 = 1%Q)
    as Hrows.
  { intros. unfold rows_calls. apply final_alpha_flat_map. intros row.
    destruct (getLine _ _) as [line|]; [|reflexivity].
    unfold line_calls. apply final_alpha_flat_map. intros col.
    destruct (getCell line col); [apply cell_calls_alpha|reflexivity]. }
  rewrite Hrows.
  destruct (showCursor _ && cursor_in_viewport t); reflexivity.
Qed.

(** X18. Every fill of the cell part of a frame is anchored inside the grid:
    it starts at the left edge of a column in [0, cols) and at a row in
    [0, rows) (the top of the cell, its underline row, its middle, or the
    glyph offset).  Nothing is drawn for a column or row outside the grid. *)
Theorem cells_drawn_in_grid (a : OffscreenAddon) (t : Terminal) :
  _terminal a = Some t ->
  has_context a ->
  exists c x cells,
    _ctx (_render a)
    = Some (mkCtx (ctx_canvas x)
              (calls x
               ++ setup_calls c (nullish_or (theme (options t)) empty_theme)
                    (frame_fontSize a t)
                    (nullish_or (fontFamily (options t))
                                "courier-new, courier, monospace")
               ++ cells
               ++ when (showCursor (_options a) && cursor_in_viewport t)
                    (cursor_highlight (_cellWidth (_render a))
                                      (_cellHeight (_render a)) t)))
    /\ Forall (at_grid_cell (_cellWidth (_render a)) (_cellHeight (_render a))
                 (frame_fontSize a t) (cols t) (rows t)) cells.
Proof.
  intros Ht Hctx.
  destruct (render_appends_frame a t Ht Hctx) as (c & x & Hc & Hx & Hr).
  exists c, x. eexists. rewrite Hr. cbn [with_ctx _ctx _cellWidth _cellHeight].
  unfold frame_calls. rewrite updateDimensions_options.
  split; [reflexivity|].
  unfold rows_calls. apply Forall_flat_map_in. intros row Hrow.
  apply range_bounds in Hrow.
  destruct (getLine _ _) as [line|]; [|constructor].
  unfold line_calls. apply Forall_flat_map_in. intros col Hcol.
  apply range_bounds in Hcol.
  destruct (getCell line col); [|constructor].
  now apply cell_calls_in_grid.
Qed.

(** X19. The 'Failed to create canvas' error of capture, getCanvas and
    renderTo is never raised: detached they fail with the not-activated
    error, and attached the render has always left a canvas. *)
Theorem canvas_creation_never_fails (options : option ICaptureOptions)
    (targetCtx : list TargetCall) (rect : option IRenderToOptions) (a : OffscreenAddon) :
  snd (capture options a) <> inl FailedToCreateCanvas
  /\ snd (getCanvas a) <> inl FailedToCreateCanvas
  /\ snd (renderTo targetCtx rect a) <> inl FailedToCreateCanvas.
Proof.
  destruct (_terminal a) as [t|] eqn:Ht.
  - destruct (capture_attached fmul Math_ceil Math_round options a t Ht) as (c & Hc & ->).
    cbv zeta. unfold renderTo, getCanvas. rewrite Ht, Hc. cbn [snd].
    split; [|split; discriminate].
    repeat match goal with |- context [if ?b then _ else _] => destruct b end;
      discriminate.
  - unfold renderTo, capture, getCanvas. rewrite Ht. cbn [snd].
    repeat split; discriminate.
Qed.

End FrameFacts.

Lemma activate_allocates_witness :
  _canvas (activate exact_mul exact_ceil (sample_terminal 0 0) (new_OffscreenAddon None))
  = Some (mkCanvas 0 32 26)
  /\ _ctx (activate exact_mul exact_ceil (sample_terminal 0 0) (new_OffscreenAddon None))
     = Some (mkCtx 0 []).
Proof.
  exact (proj2 (proj2 (activate_allocates exact_mul exact_ceil
                         (sample_terminal 0 0) (new_OffscreenAddon None))) eq_refl).
Defined.

Lemma scale_always_valid_witness :
  scale_valid (scaleFactor (_options
     (setOptions (mkAddonOptions (Some NaN) None)
        (new_OffscreenAddon (Some (mkAddonOptions (Some (Fin 2)) None)))))) = true
  /\ scaleFactor (_options
       (setOptions (mkAddonOptions (Some (Fin 0)) None)
          (new_OffscreenAddon (Some (mkAddonOptions (Some (Fin 2)) None))))) = Fin 1.
Proof.
  destruct (scale_always_valid exact_mul exact_ceil exact_round
              (new_OffscreenAddon (Some (mkAddonOptions (Some (Fin 2)) None))))
    as (_ & Hkept & Hreset).
  split.
  - apply (Hkept eq_refl).
  - apply (Hreset (mkAddonOptions (Some (Fin 0)) None) (Fin 0)); reflexivity.
Defined.

Lemma getDimensions_after_render_witness :
  getDimensions (_render exact_mul exact_ceil exact_round (sample_addon 0 0))
  = mkDimensions 32 26 4 2.
Proof.
  exact (proj1 (getDimensions_after_render exact_mul exact_ceil exact_round
                  (sample_addon 0 0) (sample_terminal 0 0) eq_refl)).
Defined.

Lemma dispose_releases_witness :
  exists c,
    _canvas (activate exact_mul exact_ceil (sample_terminal 0 0)
               (dispose (sample_addon 0 0))) = Some c
    /\ canvas_id c <> 0%nat.
Proof.
  destruct (dispose_releases exact_mul exact_ceil exact_round (sample_addon 0 0))
    as (_ & _ & _ & _ & _ & H).
  apply (H ltac:(intros c [= <-]; cbn; lia) (sample_terminal 0 0) (mkCanvas 0 32 26)).
  reflexivity.
Defined.

Lemma renderTo_blits_witness :
  renderTo exact_mul exact_ceil exact_round [] None (new_OffscreenAddon None)
  = (new_OffscreenAddon None, inl AddonNotActivated)
  /\ exists canvas,
       snd (renderTo exact_mul exact_ceil exact_round [] None (sample_addon 0 0))
       = inr [DrawImage canvas (Fin 0) (Fin 0) (Fin 32) (Fin 26)].
Proof.
  destruct (renderTo_blits exact_mul exact_ceil exact_round [] None
              (new_OffscreenAddon None)) as [Hdet _].
  split; [exact (Hdet eq_refl)|].
  destruct (renderTo_blits exact_mul exact_ceil exact_round [] None (sample_addon 0 0))
    as [_ Hatt].
  destruct (Hatt (sample_terminal 0 0) eq_refl) as (canvas & Hc & Hr & _).
  exists canvas. rewrite Hr. cbn [snd app nullish_or].
  injection Hc as <-. reflexivity.
Defined.

Lemma capture_renders_witness :
  snd (getCanvas exact_mul exact_ceil exact_round (sample_addon 0 0))
  = inr (mkCanvas 0 32 26).
Proof.
  destruct (capture_renders exact_mul exact_ceil exact_round None (sample_addon 0 0))
    as (_ & _ & H & _).
  exact (H (sample_terminal 0 0) (CreateImageBitmap (mkCanvas 0 32 26)) eq_refl eq_refl).
Defined.

Lemma render_opens_with_clear_witness :
  exists x rest,
    _ctx (sample_addon 0 0) = Some x
    /\ _ctx (_render exact_mul exact_ceil exact_round (sample_addon 0 0))
       = Some (mkCtx (ctx_canvas x)
                 (calls x
                  ++ [ SetFillStyle (Some "#000000"); FillRect 0 0 32 26;
                       SetTextBaseline "top";
                       SetFont "13px courier-new, courier, monospace" ]
                  ++ rest)).
Proof.
  destruct (render_opens_with_clear exact_mul exact_ceil exact_round
              (sample_addon 0 0) (sample_terminal 0 0) eq_refl)
    as (x & rest & Hx & Hr).
  - intros _. discriminate.
  - exists x, rest. split; [exact Hx|exact Hr].
Defined.

Lemma render_repeats_witness :
  exists frame,
    _ctx (_render exact_mul exact_ceil exact_round (sample_addon 0 0))
    = Some (mkCtx 0 ([] ++ frame))
    /\ _ctx (_render exact_mul exact_ceil exact_round
               (_render exact_mul exact_ceil exact_round (sample_addon 0 0)))
       = Some (mkCtx 0 ([] ++ frame ++ frame))
    /\ frame <> [].
Proof.
  destruct (render_repeats exact_mul exact_ceil exact_round
              (sample_addon 0 0) (sample_terminal 0 0) eq_refl)
    as (x & frame & _ & Hx & H1 & H2 & _ & H3).
  - intros _. discriminate.
  - cbn in Hx. injection Hx as <-.
    exists frame. split; [exact H1|]. split; [exact H2|exact H3].
Defined.

Lemma unavailable_rows_skipped_witness :
  exists x,
    _ctx (_render exact_mul exact_ceil exact_round
            (activate exact_mul exact_ceil blank_terminal (new_OffscreenAddon None)))
    = Some x
    /\ calls x
       = [ SetFillStyle (Some "#000000"); FillRect 0 0 32 26; SetTextBaseline "top";
           SetFont "13px courier-new, courier, monospace";
           SetFillStyle (Some "#ffffff"); SetGlobalAlpha (1 # 2);
           FillRect 8 0 8 13; SetGlobalAlpha 1 ].
Proof.
  destruct (unavailable_rows_skipped exact_mul exact_ceil exact_round
              (activate exact_mul exact_ceil blank_terminal (new_OffscreenAddon None))
              blank_terminal eq_refl)
    as (c & x & Hc & Hx & Hr).
  - intros _. discriminate.
  - intros row _. exact I.
  - eexists. split; [exact Hr|].
    injection Hc as <-. injection Hx as <-. reflexivity.
Defined.

Lemma frame_reads_viewport_only_witness :
  _ctx (_render exact_mul exact_ceil exact_round
          (terminal_changed (scrolled_terminal 5 0 0) (sample_addon 0 0)))
  = _ctx (_render exact_mul exact_ceil exact_round (sample_addon 0 0)).
Proof.
  refine (proj1 (frame_reads_viewport_only exact_mul exact_ceil exact_round
                   (sample_addon 0 0) (sample_terminal 0 0) (scrolled_terminal 5 0 0)
                   eq_refl _ eq_refl eq_refl eq_refl eq_refl eq_refl eq_refl _)).
  - intros _. discriminate.
  - intros row Hrow. cbn in Hrow.
    assert (row = 0 \/ row = 1) as [-> | ->] by lia; cbn; intros col _; reflexivity.
Defined.

Lemma render_keeps_alpha_witness :
  exists x,
    _ctx (_render exact_mul exact_ceil exact_round (sample_addon 1 1)) = Some x
    /\ ctx_alpha x = 1%Q.
Proof.
  apply (render_keeps_alpha exact_mul exact_ceil exact_round
           (sample_addon 1 1) (sample_terminal 1 1) eq_refl).
  - intros _. discriminate.
  - intros x [= <-]. reflexivity.
Defined.

Lemma cells_drawn_in_grid_witness :
  exists c x cells,
    _ctx (_render exact_mul exact_ceil exact_round (sample_addon 9 9))
    = Some (mkCtx (ctx_canvas x)
              (calls x
               ++ setup_calls c empty_theme 13 "courier-new, courier, monospace"
               ++ cells ++ []))
    /\ Forall (at_grid_cell 8 13 13 4 2) cells.
Proof.
  destruct (cells_drawn_in_grid exact_mul exact_ceil exact_round
              (sample_addon 9 9) (sample_terminal 9 9) eq_refl)
    as (c & x & cells & Hr & Hin).
  - intros _. discriminate.
  - exists c, x, cells. split; [exact Hr|exact Hin].
Defined.
